(** * libkloudtrader.algorithm: the execution loop of [run_backtest] and [run_live]

    A shallow embedding of [src/libkloudtrader/algorithm.py].  The two entry
    points are Python functions that call external collaborators (data
    sources, the strategy callable, the market clock, the logger) and are
    wrapped in a [try]/[except] block.  They are embedded as computations in
    a small monad that threads a logical clock, records every external
    interaction in a trace, and may raise a Python exception.  [run_live]
    contains unbounded [while] loops and is embedded with fuel. *)

From Stdlib Require Import List Sorted String Ascii ZArith QArith Bool Arith Lia.
Import ListNotations.
Close Scope Q_scope.
Open Scope string_scope.
Open Scope list_scope.

(** ** Python values and exceptions *)

(** Python exceptions, by the classes the two [except] clauses of the source
    tell apart: [KeyboardInterrupt] and [SystemExit]; instances of
    [Exception], identified by class name and message; and the instances of
    [BaseException] that are none of these (such as [GeneratorExit]), which
    neither clause matches. *)
Inductive exn : Type :=
| KeyboardInterrupt
| SystemExit
| PyException (cls : string) (msg : string)
| PyBaseException (cls : string) (msg : string).

Definition InvalidDataFeedType : exn :=
  PyException "InvalidDataFeedType" "This Data Feed is not available for live trading.".
Definition EmptySymbolBucket (msg : string) : exn := PyException "EmptySymbolBucket" msg.
Definition KeyError (key : string) : exn := PyException "KeyError" key.
Definition NameError (name : string) : exn :=
  PyException "NameError" ("name '" ++ name ++ "' is not defined")%string.
Definition IndexError (msg : string) : exn := PyException "IndexError" msg.
Definition InvalidCapacity : exn := PyException "InvalidCapacity" "capacity must be at least 1".

(** The two classes named by [except (KeyboardInterrupt, SystemExit)]. *)
Definition is_interrupt (e : exn) : bool :=
  match e with
  | KeyboardInterrupt | SystemExit => true
  | PyException _ _ | PyBaseException _ _ => false
  end.

(** The class named by [except Exception]. *)
Definition is_exception (e : exn) : bool :=
  match e with
  | PyException _ _ => true
  | KeyboardInterrupt | SystemExit | PyBaseException _ _ => false
  end.

(** Outcome of a call: it returns, it raises, or (for the fuelled loops of
    [run_live]) it has not finished within the fuel given. *)
Inductive result (A : Type) : Type :=
| Ok (a : A)
| Raise (e : exn)
| Unfinished.
Arguments Ok {A} a.
Arguments Raise {A} e.
Arguments Unfinished {A}.

(** [str.lower()] on ASCII letters. *)
Definition lower_ascii (c : ascii) : ascii :=
  let n := nat_of_ascii c in
  if (65 <=? n)%nat && (n <=? 90)%nat then ascii_of_nat (n + 32) else c.

Fixpoint lower (s : string) : string :=
  match s with
  | EmptyString => EmptyString
  | String c rest => String (lower_ascii c) (lower rest)
  end.

(** [x in xs] for a list of strings. *)
Definition str_in (x : string) (xs : list string) : bool :=
  existsb (String.eqb x) xs.

Definition newline : string := String (ascii_of_nat 10) EmptyString.

(** ** Bars and data frames *)

(** One row of a pandas [DataFrame] of market data: the index value (the
    bar's timestamp) and the price/volume columns. *)
Record Bar : Type := mkBar { timestamp : Z; columns : list Q }.

(** A [DataFrame] is the ordered list of its rows. *)
Definition DataFrame : Type := list Bar.

(** [DataFrame.iterrows()]: the pairs (index, row) in row order. *)
Definition iterrows (df : DataFrame) : list (Z * Bar) :=
  map (fun bar => (timestamp bar, bar)) df.

(** ** processing.Buffer *)

Module processing.

(** Modelled from the spec: [processing.Buffer] (the RollingBuffer of the
    specification) is not part of the sources.  It is an ordered sequence
    with a fixed maximum capacity [C]; the contents are kept oldest first. *)
Record Buffer (A : Type) : Type := mkBuffer { capacity : nat; items : list A }.
Arguments mkBuffer {A} capacity items.
Arguments capacity {A} b.
Arguments items {A} b.

(** Modelled from the spec: construction fails with [InvalidCapacity] when
    [C < 1]. *)
Definition new {A : Type} (C : Z) : result (Buffer A) :=
  if (C <? 1)%Z then Raise InvalidCapacity
  else Ok (mkBuffer (Z.to_nat C) []).

(** Modelled from the spec: [len()], the current occupancy. *)
Definition len {A : Type} (b : Buffer A) : nat := List.length (items b).

(** Modelled from the spec: [append(item)]: if length == C, the oldest
    element is dropped before the new one is stored. *)
Definition append {A : Type} (b : Buffer A) (x : A) : Buffer A :=
  if (len b =? capacity b)%nat
  then mkBuffer (capacity b) (tl (items b) ++ [x])
  else mkBuffer (capacity b) (items b ++ [x]).

(** Modelled from the spec: [popleft()], the eviction of the oldest entry
    that the live stepping algorithm asks for; it is not part of the
    sources.  On an empty buffer it raises [IndexError], as Python sequences
    do. *)
Definition popleft {A : Type} (b : Buffer A) : result (Buffer A) :=
  match items b with
  | [] => Raise (IndexError "pop from an empty Buffer")
  | _ :: rest => Ok (mkBuffer (capacity b) rest)
  end.

(** Modelled from the spec: [snapshot()], the contents in insertion order;
    this is what [pd.DataFrame(batch)] reads. *)
Definition snapshot {A : Type} (b : Buffer A) : list A := items b.

(** A run of appends, oldest first. *)
Definition appends {A : Type} (b : Buffer A) (xs : list A) : Buffer A :=
  fold_left append xs b.

End processing.

(** ** backtest.Backtest *)

Module bt.

(** Modelled from the spec: [backtest.Backtest] (the ExecutionContext of the
    specification) is not part of the sources.  It holds the capital, the
    commission rate, the slippage flag and the ledger of the bars forwarded
    to it. *)
Record Backtest : Type := mkBacktest {
  capital : Q;
  commission : Q;
  enable_slippage : bool;
  ledger : list (Z * Bar)
}.

(** Modelled from the spec: [Backtest(capital=, commission=,
    enable_slippage=)] starts from the values given and an empty ledger. *)
Definition new (capital commission : Q) (enable_slippage : bool) : Backtest :=
  mkBacktest capital commission enable_slippage [].

(** Modelled from the spec: [update_bar(datetime, bar)] forwards the bar to
    the ledger. *)
Definition update_bar (b : Backtest) (datetime : Z) (bar : Bar) : Backtest :=
  mkBacktest (capital b) (commission b) (enable_slippage b) (ledger b ++ [(datetime, bar)]).

End bt.

(** ** The trace of external interactions *)

Inductive level : Type := INFO | ERROR | CRITICAL.

(** An argument of [str.format]. *)
Inductive fmt_arg : Type :=
| FStr (s : string)
| FNum (q : Q).

Inductive event : Type :=
| EvLog (lvl : level) (template : string) (args : list fmt_arg)
    (* logger.<lvl>(template.format( *args)) *)
| EvPrint (s : string)
    (* print(s) *)
| EvPrintTradeLog (backtest : bt.Backtest)
    (* print(backtest.get_trade_log) *)
| EvDataCall (symbol start end_ interval : string)
    (* data_to_backtest_on(symbol=, start=, end=, interval=) *)
| EvNewBacktest (capital commission : Q) (enable_slippage : bool)
    (* bt.Backtest(capital=, commission=, enable_slippage=) *)
| EvUpdateBar (datetime : Z) (bar : Bar)
    (* backtest.update_bar(datetime, bar) *)
| EvStrategyBacktest (backtest : bt.Backtest) (data_batch : DataFrame)
    (* strategy(backtest, data_batch) *)
| EvIntradayStatus
    (* stocks.intraday_status()['state'] *)
| EvExchangeAttribute (attribute : string)
    (* crypto.exchange_attribute(attribute) *)
| EvFeedCall (symbol : string) (fake_feed : bool)
    (* data_feed(symbol, fake_feed=) *)
| EvStrategyLive (data_batch : DataFrame)
    (* strategy(data_batch) *)
| EvSleep (seconds : Q).
    (* time.sleep(seconds) *)

(** A trace lists the events oldest first, each with the clock reading at
    which it happened. *)
Definition trace : Type := list (nat * event).

(** ** The monad: clock, trace and exceptions *)

Record run (A : Type) : Type := Run { outcome : result A; clock : nat; events : trace }.
Arguments Run {A} outcome clock events.
Arguments outcome {A} r.
Arguments clock {A} r.
Arguments events {A} r.

Definition M (A : Type) : Type := nat -> run A.

Definition ret {A : Type} (a : A) : M A := fun now => Run (Ok a) now [].

(** The outcome of a pure call: no event, no time passes. *)
Definition lift {A : Type} (r : result A) : M A := fun now => Run r now [].

Definition raise {A : Type} (e : exn) : M A := fun now => Run (Raise e) now [].

Definition unfinished {A : Type} : M A := fun now => Run Unfinished now [].

Definition bind {A B : Type} (m : M A) (f : A -> M B) : M B :=
  fun now =>
    let r := m now in
    match outcome r with
    | Ok a => let r' := f a (clock r) in
              Run (outcome r') (clock r') (events r ++ events r')
    | Raise e => Run (Raise e) (clock r) (events r)
    | Unfinished => Run Unfinished (clock r) (events r)
    end.

Declare Scope py_scope.
Delimit Scope py_scope with py.
Notation "x <- m ;; k" := (bind m (fun x => k))
  (at level 100, m at next level, right associativity) : py_scope.
Notation "m ;; k" := (bind m (fun _ => k))
  (at level 100, right associativity) : py_scope.
Open Scope py_scope.

(** Record an interaction that has no result of interest. *)
Definition emit (e : event) : M unit := fun now => Run (Ok tt) now [(now, e)].

(** Call an external collaborator: the call is recorded, its outcome is the
    collaborator's. *)
Definition call {A : Type} (e : event) (answer : nat -> result A) : M A :=
  fun now => Run (answer now) now [(now, e)].

(** [time.sleep(seconds)]: the only suspension point; one polling cycle of
    the logical clock passes. *)
Definition sleep (seconds : Q) : M unit :=
  fun now => Run (Ok tt) (S now) [(now, EvSleep seconds)].

(** [try: body except ...: handler]: an exception raised by the body is
    handed to the handler, which runs after the body's events; a handler
    that matches no clause raises the exception again. *)
Definition try_except {A : Type} (body : M A) (handler : exn -> M A) : M A :=
  fun now =>
    let r := body now in
    match outcome r with
    | Raise e => let r' := handler e (clock r) in
                 Run (outcome r') (clock r') (events r ++ events r')
    | _ => r
    end.

(** ** External collaborators *)

(** A historical data source: [f(symbol=, start=, end=, interval=)]. *)
Definition HistoricalSource : Type :=
  string -> string -> string -> string -> result DataFrame.

(** A live data feed: [f(symbol, fake_feed=)], read at the current clock. *)
Definition LiveFeed : Type := string -> bool -> nat -> result Bar.

(** Everything the two functions reach outside this module.  The enum
    [Data_Types], [stocks.intraday_status] and [crypto.exchange_attribute]
    are not part of the sources and are taken as parameters.  [weekday] and
    [calendar_date] are the wall calendar; no code of the module reads it. *)
Record World : Type := mkWorld {
  Data_Types_historical : string -> option HistoricalSource;
  Data_Types_live : string -> option LiveFeed;
  intraday_state : nat -> result string;
  exchange_attribute : string -> result Q;
  weekday : nat -> string;
  calendar_date : nat -> string
}.

(** The strategy callable in backtest mode, [strategy(backtest, data_batch)],
    may mutate the context it is given; [strategy.__name__] is its name. *)
Record BacktestStrategy : Type := mkBacktestStrategy {
  bt_name : string;
  bt_call : bt.Backtest -> DataFrame -> result bt.Backtest
}.

(** The strategy callable in live mode, [strategy(data_batch)]. *)
Record LiveStrategy : Type := mkLiveStrategy {
  live_name : string;
  live_call : DataFrame -> result unit
}.

(** ** run_backtest *)

(** The keyword arguments of [run_backtest]. *)
Record BacktestArgs : Type := mkBacktestArgs {
  bt_symbol_bucket : list string;
  bt_data : string;
  bt_start : string;
  bt_end : string;
  bt_data_interval : string;
  bt_preferred_price_point : string;
  bt_preferred_benchmark : string;
  bt_initial_capital : Q;
  bt_commission : Q;
  bt_slippage : bool
}.

(** [Data_Types[data].value] *)
Definition lookup {A : Type} (table : string -> option A) (key : string) : M A :=
  match table key with
  | Some v => ret v
  | None => raise (KeyError key)
  end.

(** Lines 50-55: [for datetime, bar in data_batch.iterrows(): ...]. *)
Fixpoint backtest_rows (strategy : BacktestStrategy) (rows : list (Z * Bar))
    (batch : processing.Buffer Bar) (backtest : bt.Backtest) : M bt.Backtest :=
  match rows with
  | [] => ret backtest
  | (datetime, bar) :: rest =>
      let batch := processing.append batch bar in
      emit (EvUpdateBar datetime bar);;
      let backtest := bt.update_bar backtest datetime bar in
      let data_batch := processing.snapshot batch in
      backtest <- call (EvStrategyBacktest backtest data_batch)
                       (fun _ => bt_call strategy backtest data_batch);;
      backtest_rows strategy rest batch backtest
  end.

(** Lines 44-58: the body of [for symbol in symbol_bucket]. *)
Definition backtest_symbol (strategy : BacktestStrategy) (args : BacktestArgs)
    (data_to_backtest_on : HistoricalSource) (symbol : string) : M unit :=
  data_batch <- call (EvDataCall symbol (bt_start args) (bt_end args) (bt_data_interval args))
                     (fun _ => data_to_backtest_on symbol (bt_start args) (bt_end args)
                                 (bt_data_interval args));;
  batch <- lift (processing.new (Z.of_nat (List.length data_batch)));;
  emit (EvNewBacktest 100000 1 true);;
  let backtest := bt.new 100000 1 true in
  backtest <- backtest_rows strategy (iterrows data_batch) batch backtest;;
  emit (EvPrintTradeLog backtest).

(** Line 43: [for symbol in symbol_bucket]. *)
Fixpoint backtest_symbols (strategy : BacktestStrategy) (args : BacktestArgs)
    (data_to_backtest_on : HistoricalSource) (symbols : list string) : M unit :=
  match symbols with
  | [] => ret tt
  | symbol :: rest =>
      backtest_symbol strategy args data_to_backtest_on symbol;;
      backtest_symbols strategy args data_to_backtest_on rest
  end.

(** Lines 39-58: the [try] block of [run_backtest]. *)
Definition backtest_body (w : World) (strategy : BacktestStrategy) (args : BacktestArgs)
    : M unit :=
  emit (EvLog INFO "Starting Backtest for {} from {} to {} with initial capital = {}"
          [FStr (bt_name strategy); FStr (bt_start args); FStr (bt_end args);
           FNum (bt_initial_capital args)]);;
  data_to_backtest_on <- lookup (Data_Types_historical w) (bt_data args);;
  backtest_symbols strategy args data_to_backtest_on (bt_symbol_bucket args).

(** Lines 94-103: the two [except] clauses of [run_backtest]. *)
Definition backtest_handler (strategy : BacktestStrategy) (e : exn) : M unit :=
  match e with
  | KeyboardInterrupt | SystemExit =>
      emit (EvPrint newline);;
      emit (EvLog CRITICAL "User's keyboard prompt stopped {}" [FStr (bt_name strategy)])
  | PyException _ _ as exception =>
      emit (EvLog CRITICAL "Exiting {}...‼️" [FStr (bt_name strategy)]);;
      emit (EvLog ERROR
              "Oops! Something went wrong while your algorithm was being backtested. ⚠️" []);;
      raise exception
  | PyBaseException _ _ => raise e
  end.

Definition run_backtest (w : World) (strategy : BacktestStrategy) (args : BacktestArgs)
    : M unit :=
  try_except (backtest_body w strategy args) (backtest_handler strategy).

(** ** run_live *)

(** What the caller passes as [symbol_bucket]: a Python list, or any other
    object (a numpy array included). *)
Inductive SymbolBucket : Type :=
| PyList (symbols : list string)
| NotAList.

(** The keyword arguments of [run_live]. *)
Record LiveArgs : Type := mkLiveArgs {
  symbol_bucket : SymbolBucket;
  data_feed_type : string;
  exempted_states : list string;
  exempted_days : list string;
  exempted_dates : list string;
  batch_size : Z;
  data_feed_delay : Q;
  fake_feed : bool
}.

(** The defaults of the signature (lines 113-118). *)
Definition default_live_args (bucket : SymbolBucket) (feed : string) : LiveArgs :=
  mkLiveArgs bucket feed [""] [""] [""] 1000 1 false.

Section live_loop.

Variable strategy : LiveStrategy.
Variable symbols : list string.
Variable data_feed : LiveFeed.
Variable the_batch_size : Z.
Variable the_delay : Q.
Variable the_fake_feed : bool.

(** Lines 139-145: [for symbol in symbol_bucket: ...]. *)
Fixpoint live_for (todo : list string) (batch : processing.Buffer Bar)
    : M (processing.Buffer Bar) :=
  match todo with
  | [] => ret batch
  | symbol :: rest =>
      bar <- call (EvFeedCall symbol the_fake_feed) (data_feed symbol the_fake_feed);;
      let batch := processing.append batch bar in
      let data_batch := processing.snapshot batch in
      call (EvStrategyLive data_batch) (fun _ => live_call strategy data_batch);;
      batch <- (if (Z.of_nat (processing.len batch) =? the_batch_size)%Z
                then lift (processing.popleft batch)
                else ret batch);;
      sleep (the_delay / 1000);;
      live_for rest batch
  end.

(** Line 138: [while len(batch) < batch_size: ...]. *)
Fixpoint live_while (fuel : nat) (batch : processing.Buffer Bar)
    : M (processing.Buffer Bar) :=
  match fuel with
  | O => unfinished
  | S fuel' =>
      if (Z.of_nat (processing.len batch) <? the_batch_size)%Z
      then (batch <- live_for symbols batch;; live_while fuel' batch)
      else ret batch
  end.

Variable w : World.
Variable the_exempted_states : list string.

(** Lines 136-138: [while stocks.intraday_status()['state'] not in
    exempted_states: batch = processing.Buffer(batch_size, ...); ...]. *)
Fixpoint live_outer (fuel : nat) : M unit :=
  match fuel with
  | O => unfinished
  | S fuel' =>
      state <- call EvIntradayStatus (intraday_state w);;
      if negb (str_in state the_exempted_states)
      then (batch <- lift (processing.new the_batch_size);;
            live_while fuel' batch;;
            live_outer fuel')
      else ret tt
  end.

End live_loop.

(** Lines 120-145: the [try] block of [run_live]. *)
Definition live_body (w : World) (strategy : LiveStrategy) (args : LiveArgs) (fuel : nat)
    : M unit :=
  emit (EvLog INFO ("{} is now entering the live markets. 📈" ++ newline)
          [FStr (live_name strategy)]);;
  let _ := map lower (exempted_states args) in
  let _ := map lower (exempted_days args) in
  symbols <- match symbol_bucket args with
             | PyList symbols => ret symbols
             | NotAList => raise (NameError "numpy")
             end;;
  if negb (str_in (data_feed_type args)
             ["CRYPTO_live_feed"; "US_STOCKS_live_feed"; "CRYPTO_live_feed_level2"])
  then raise InvalidDataFeedType
  else
    delay <- (if str_in (data_feed_type args) ["CRYPTO_live_feed"; "CRYPTO_live_feed_level2"]
              then call (EvExchangeAttribute "rateLimit")
                        (fun _ => exchange_attribute w "rateLimit")
              else ret (data_feed_delay args));;
    data_feed <- lookup (Data_Types_live w) (data_feed_type args);;
    live_outer strategy symbols data_feed (batch_size args) delay (fake_feed args)
      w (exempted_states args) fuel.

(** Lines 146-153: the two [except] clauses of [run_live]. *)
Definition live_handler (strategy : LiveStrategy) (e : exn) : M unit :=
  match e with
  | KeyboardInterrupt | SystemExit =>
      emit (EvPrint newline);;
      emit (EvLog CRITICAL "User's keyboard prompt stopped {}" [FStr (live_name strategy)])
  | PyException _ _ as exception =>
      emit (EvLog CRITICAL "Exiting {}...‼️" [FStr (live_name strategy)]);;
      emit (EvLog ERROR "Oops! Something went wrong ⚠️" []);;
      raise exception
  | PyBaseException _ _ => raise e
  end.

Definition run_live (w : World) (strategy : LiveStrategy) (args : LiveArgs) (fuel : nat)
    : M unit :=
  try_except (live_body w strategy args fuel) (live_handler strategy).

(** ** Reading a trace *)

(** The strategy invocations of a backtest, in order, with their arguments. *)
Definition bt_calls (tr : trace) : list (bt.Backtest * DataFrame) :=
  flat_map (fun te => match snd te with
                      | EvStrategyBacktest backtest data_batch => [(backtest, data_batch)]
                      | _ => []
                      end) tr.

(** The strategy invocations of a live run, in order: clock and snapshot. *)
Definition live_calls (tr : trace) : list (nat * DataFrame) :=
  flat_map (fun te => match snd te with
                      | EvStrategyLive data_batch => [(fst te, data_batch)]
                      | _ => []
                      end) tr.

(** The calls made to a data source, historical or live. *)
Definition data_calls (tr : trace) : list event :=
  flat_map (fun te => match snd te with
                      | EvDataCall _ _ _ _ | EvFeedCall _ _ => [snd te]
                      | _ => []
                      end) tr.

(** How many times the market state was read. *)
Definition status_reads (tr : trace) : nat :=
  List.length (filter (fun te => match snd te with EvIntradayStatus => true | _ => false end) tr).

(** The contexts constructed by [bt.Backtest(...)], by constructor arguments. *)
Definition new_backtests (tr : trace) : list (Q * Q * bool) :=
  flat_map (fun te => match snd te with
                      | EvNewBacktest c m s => [(c, m, s)]
                      | _ => []
                      end) tr.

(** The arguments of [time.sleep]. *)
Definition sleeps (tr : trace) : list Q :=
  flat_map (fun te => match snd te with EvSleep s => [s] | _ => [] end) tr.

(** The windows a strategy sees while a series is replayed into a buffer
    that already holds [seen]: one more bar each time. *)
Fixpoint windows_after (seen : list Bar) (bars : list Bar) : list DataFrame :=
  match bars with
  | [] => []
  | bar :: rest => (seen ++ [bar]) :: windows_after (seen ++ [bar]) rest
  end.

(** The bar a window was built for: its newest row. *)
Definition newest (data_batch : DataFrame) : Bar := last data_batch (mkBar 0 []).

(** The last [n] elements of a list. *)
Definition lastn {A : Type} (n : nat) (l : list A) : list A :=
  skipn (List.length l - n) l.

(** Hoare-style reading of a computation: every event it records satisfies
    [P], and a returned value satisfies [Q]. *)
Definition satisfies {A : Type} (m : M A) (P : nat * event -> Prop) (Q : A -> Prop) : Prop :=
  forall now, Forall P (events (m now)) /\ (forall a, outcome (m now) = Ok a -> Q a).

(** The invariant of the live buffer between two polls: it was built with
    capacity [batch_size] and is not full. *)
Definition live_batch_inv (batch_size : Z) (batch : processing.Buffer Bar) : Prop :=
  processing.capacity batch = Z.to_nat batch_size /\
  (Z.of_nat (processing.len batch) < batch_size)%Z.

(** What the polling loop of [run_live] may record: feed calls for symbols
    of the bucket, strategy calls on a window no longer than [batch_size],
    and sleeps of [delay / 1000] seconds. *)
Definition poll_event (symbols : list string) (batch_size : Z) (delay : Q) (fake_feed : bool)
    (te : nat * event) : Prop :=
  match snd te with
  | EvFeedCall symbol f => In symbol symbols /\ f = fake_feed
  | EvStrategyLive data_batch =>
      symbols <> [] /\ (Z.of_nat (List.length data_batch) <= batch_size)%Z
  | EvSleep seconds => seconds = (delay / 1000)%Q
  | _ => False
  end.

(** Events that are neither a data-source call, nor a strategy call, nor a
    sleep. *)
Definition quiet_event (te : nat * event) : Prop :=
  match snd te with
  | EvLog _ _ _ | EvPrint _ | EvExchangeAttribute _ | EvIntradayStatus => True
  | _ => False
  end.

(** The delay line 133-134 leaves in [data_feed_delay]. *)
Definition pacing (w : World) (args : LiveArgs) (delay : Q) : Prop :=
  if str_in (data_feed_type args) ["CRYPTO_live_feed"; "CRYPTO_live_feed_level2"]
  then exchange_attribute w "rateLimit" = Ok delay
  else delay = data_feed_delay args.

(** The first event of every backtest (lines 39-41). *)
Definition starting (strategy : BacktestStrategy) (args : BacktestArgs) (now : nat)
    : nat * event :=
  (now, EvLog INFO "Starting Backtest for {} from {} to {} with initial capital = {}"
          [FStr (bt_name strategy); FStr (bt_start args); FStr (bt_end args);
           FNum (bt_initial_capital args)]).

(** What the replay of one series records: bars forwarded to the context
    and strategy calls. *)
Definition replay_event (te : nat * event) : Prop :=
  match snd te with
  | EvUpdateBar _ _ | EvStrategyBacktest _ _ => True
  | _ => False
  end.

(** Every context is constructed with the constants of line 49. *)
Definition context_event (te : nat * event) : Prop :=
  match snd te with
  | EvNewBacktest capital commission enable_slippage =>
      capital = 100000%Q /\ commission = 1%Q /\ enable_slippage = true
  | _ => True
  end.

(** The first event of every live run (line 120). *)
Definition entering (strategy : LiveStrategy) (now : nat) : nat * event :=
  (now, EvLog INFO ("{} is now entering the live markets. 📈" ++ newline)
          [FStr (live_name strategy)]).

(** The recognised live feed identifiers (line 128) and the crypto ones
    among them (line 133). *)
Definition recognised_feed (feed : string) : Prop :=
  feed = "CRYPTO_live_feed" \/ feed = "US_STOCKS_live_feed" \/ feed = "CRYPTO_live_feed_level2".

Definition crypto_feed (feed : string) : Prop :=
  feed = "CRYPTO_live_feed" \/ feed = "CRYPTO_live_feed_level2".

(** The same live arguments with other weekday and calendar-date lists. *)
Definition with_calendar_exemptions (args : LiveArgs) (days dates : list string) : LiveArgs :=
  mkLiveArgs (symbol_bucket args) (data_feed_type args) (exempted_states args)
    days dates (batch_size args) (data_feed_delay args) (fake_feed args).

(** The same live arguments with another market-state list. *)
Definition with_exempted_states (args : LiveArgs) (states : list string) : LiveArgs :=
  mkLiveArgs (symbol_bucket args) (data_feed_type args) states
    (exempted_days args) (exempted_dates args) (batch_size args) (data_feed_delay args)
    (fake_feed args).

(** The same world with another course of the market state. *)
Definition with_market (w : World) (market : nat -> result string) : World :=
  mkWorld (Data_Types_historical w) (Data_Types_live w) market (exchange_attribute w)
    (weekday w) (calendar_date w).

(** A live strategy invocation at clock [t] respects the exemption filters
    when the market state, the weekday and the date current at [t] are all
    outside the caller's lists. *)
Definition outside_exemptions (w : World) (args : LiveArgs) (t : nat) : Prop :=
  (forall state, intraday_state w t = Ok state ->
                 str_in state (exempted_states args) = false) /\
  str_in (weekday w t) (exempted_days args) = false /\
  str_in (calendar_date w t) (exempted_dates args) = false.

(** The strategy is never invoked during an exemption: every invocation
    recorded in the trace respects the filters at its clock. *)
Definition never_invoked_when_exempted (w : World) (args : LiveArgs) (tr : trace) : Prop :=
  forall t data_batch, In (t, data_batch) (live_calls tr) -> outside_exemptions w args t.

(** A run fails with [EmptySymbolBucket]. *)
Definition fails_with_EmptySymbolBucket (r : run unit) : Prop :=
  exists msg, outcome r = Raise (EmptySymbolBucket msg).

(** Exemption matching is case-insensitive in the caller's entries when
    replacing the list by its lower-cased form changes nothing. *)
Definition states_case_insensitive (w : World) (strategy : LiveStrategy) (args : LiveArgs)
    (fuel now : nat) : Prop :=
  run_live w strategy args fuel now =
  run_live w strategy (with_exempted_states args (map lower (exempted_states args))) fuel now.

(** ** Sample collaborators and runs *)

Module sample.

Definition bar (t : Z) (close : Q) : Bar := mkBar t [close].

Definition AAA : DataFrame := [bar 1 10; bar 2 11].
Definition BBB : DataFrame := [bar 1 20; bar 2 21].

Definition history : HistoricalSource :=
  fun symbol _ _ _ =>
    if String.eqb symbol "AAA" then Ok AAA
    else if String.eqb symbol "BBB" then Ok BBB
    else Raise (PyException "ValueError" "no such symbol").

Definition feed : LiveFeed :=
  fun _ _ now => Ok (bar (Z.of_nat now) 1).

(** The market is open at clock 0 and closed from clock 1 on; every day is
    a Sunday, the first of March. *)
Definition world : World :=
  mkWorld (fun data => if String.eqb data "US_STOCKS_daily" then Some history else None)
          (fun _ => Some feed)
          (fun now => if (now =? 0)%nat then Ok "open" else Ok "closed")
          (fun _ => Ok 50%Q)
          (fun _ => "sunday")
          (fun _ => "2020-03-01").

(** A market that stays open. *)
Definition open_world : World :=
  mkWorld (fun _ => Some history) (fun _ => Some feed) (fun _ => Ok "open")
          (fun _ => Ok 50%Q) (fun _ => "monday") (fun _ => "2020-03-02").

Definition hold : BacktestStrategy := mkBacktestStrategy "hold" (fun backtest _ => Ok backtest).

Definition watch : LiveStrategy := mkLiveStrategy "watch" (fun _ => Ok tt).

(** A strategy stopped by Ctrl-C on its second bar. *)
Definition stopped : BacktestStrategy :=
  mkBacktestStrategy "stopped"
    (fun backtest data_batch =>
       if (List.length data_batch =? 2)%nat then Raise KeyboardInterrupt else Ok backtest).

(** A live strategy stopped by Ctrl-C on its second window. *)
Definition stopped_live : LiveStrategy :=
  mkLiveStrategy "stopped"
    (fun data_batch =>
       if (List.length data_batch =? 2)%nat then Raise KeyboardInterrupt else Ok tt).

(** A strategy that fails on its second bar. *)
Definition broken : BacktestStrategy :=
  mkBacktestStrategy "broken"
    (fun backtest data_batch =>
       if (List.length data_batch =? 2)%nat
       then Raise (PyException "ZeroDivisionError" "division by zero")
       else Ok backtest).

Definition broken_live : LiveStrategy :=
  mkLiveStrategy "broken"
    (fun data_batch =>
       if (List.length data_batch =? 2)%nat
       then Raise (PyException "ZeroDivisionError" "division by zero")
       else Ok tt).

Definition backtest_args (bucket : list string) : BacktestArgs :=
  mkBacktestArgs bucket "US_STOCKS_daily" "2020-01-01" "2020-01-03" "1d" "close" "SPY"
    50000 0 false.

Definition live_args (bucket : list string) (feed : string) (states : list string) : LiveArgs :=
  mkLiveArgs (PyList bucket) feed states [""] [""] 2 250 false.

End sample.

(** ** More readings of a trace *)

(** How many times the exchange's attributes were looked up. *)
Definition rate_limit_lookups (tr : trace) : nat :=
  List.length
    (filter (fun te => match snd te with EvExchangeAttribute _ => true | _ => false end) tr).

(** Events of the live collaborators: the market state, the exchange, the
    live feed, the live strategy and the pacing sleep. *)
Definition live_only_event (te : nat * event) : Prop :=
  match snd te with
  | EvIntradayStatus | EvExchangeAttribute _ | EvFeedCall _ _ | EvStrategyLive _
  | EvSleep _ => True
  | _ => False
  end.

(** A computation during which no time passes. *)
Definition timeless {A : Type} (m : M A) : Prop := forall now, clock (m now) = now.

(** A strategy call of a backtest is on the current bar when that bar is
    the newest row of the window and the last entry forwarded to the
    context. *)
Definition on_current_bar (c : bt.Backtest * DataFrame) : Prop :=
  exists older earlier bar,
    snd c = older ++ [bar] /\ bt.ledger (fst c) = earlier ++ [(timestamp bar, bar)].

(** The bars a feed that always answers gives when the symbols of [todo]
    are polled one per clock tick from [now] on. *)
Fixpoint fetched (feed : string -> nat -> Bar) (todo : list string) (now : nat) : list Bar :=
  match todo with
  | [] => []
  | symbol :: rest => feed symbol now :: fetched feed rest (S now)
  end.




(** The call that fetches the series of a symbol for a backtest. *)
Definition fetch (args : BacktestArgs) (symbol : string) : event :=
  EvDataCall symbol (bt_start args) (bt_end args) (bt_data_interval args).

(** The data source serves a symbol when it answers the fetch with the
    non-empty series [series symbol]. *)
Definition served (args : BacktestArgs) (source : HistoricalSource)
    (series : string -> DataFrame) (symbol : string) : Prop :=
  source symbol (bt_start args) (bt_end args) (bt_data_interval args) = Ok (series symbol) /\
  series symbol <> [].

(** ** analysis: the validation helpers and some of their callers *)

Module analysis.

(** A value of a numeric series: a number, or [np.nan]. *)
Inductive fval : Type :=
| NaN
| Num (q : Q).

(** A [pandas.Series] or numpy array, by its values in order. *)
Definition Series : Type := list fval.

(** What a caller passes as a period or a level: an [int], a [bool] (a
    subclass of [int]), or any other object, given by its [str()], by
    whether it is a [float], and by what [int()] makes of it. *)
Inductive period_arg : Type :=
| PeriodInt (z : Z)
| PeriodBool (b : bool)
| PeriodOther (repr : string) (float : bool) (as_int : result Z).

(** [isinstance(period, int)] *)
Definition is_int (period : period_arg) : bool :=
  match period with
  | PeriodInt _ | PeriodBool _ => true
  | PeriodOther _ _ _ => false
  end.

(** [isinstance(period, float)] *)
Definition is_float (period : period_arg) : bool :=
  match period with
  | PeriodInt _ | PeriodBool _ => false
  | PeriodOther _ float _ => float
  end.

(** [int(period)] *)
Definition int_ (period : period_arg) : result Z :=
  match period with
  | PeriodInt z => Ok z
  | PeriodBool b => Ok (if b then 1 else 0)%Z
  | PeriodOther _ _ as_int => as_int
  end.

(** The period as an argument of [str.format]. *)
Definition fmt_period (period : period_arg) : fmt_arg :=
  match period with
  | PeriodInt z => FNum (inject_Z z)
  | PeriodBool b => FStr (if b then "True" else "False")
  | PeriodOther repr _ _ => FStr repr
  end.

Definition AnalysisException (msg : string) : exn := PyException "AnalysisException" msg.
Definition ValueError (msg : string) : exn := PyException "ValueError" msg.

(** [logger.error('Oops! An error Occurred ⚠️')] *)
Definition log_oops : M unit := emit (EvLog ERROR "Oops! An error Occurred ⚠️" []).

(** The event [log_oops] records at clock [now]. *)
Definition oops (now : nat) : nat * event :=
  (now, EvLog ERROR "Oops! An error Occurred ⚠️" []).

Definition period_too_long : exn :=
  AnalysisException "Length of Period is greater than number of data points in data.".
Definition period_not_int : exn := AnalysisException "Period must be an integer.".
Definition mismatched_lengths : exn :=
  AnalysisException
    "Mismatched data lengths. Please ensure that all data is of same length.".
Definition not_a_year : exn :=
  AnalysisException
    "Data has more or less entries than one year should have. Please use returns() function to calculate returns for n number of days.".
Definition bad_confidence_level : exn :=
  AnalysisException "Confidence level must be an integer or floating point number.".

(** Lines 19-28. *)
Definition check_for_period_error (data : Series) (period : period_arg) : M unit :=
  period <- lift (int_ period);;
  let data_len := Z.of_nat (List.length data) in
  if (data_len <? period)%Z
  then (log_oops;; raise period_too_long)
  else ret tt.

(** Lines 31-35. *)
Definition check_period_type (period : period_arg) : M unit :=
  if negb (is_int period)
  then (log_oops;; raise period_not_int)
  else ret tt.

(** Lines 38-43: [np.repeat] refuses a negative count. *)
Definition fill_for_noncomputable_vals (input_data result_data : Series) : result Series :=
  let count := (Z.of_nat (List.length input_data) - Z.of_nat (List.length result_data))%Z in
  if (count <? 0)%Z
  then Raise (ValueError "negative dimensions are not allowed")
  else
    let non_computable_values := repeat NaN (Z.to_nat count) in
    Ok (non_computable_values ++ result_data).

(** Lines 46-53: [all(a == arrays_len[0] for a in arrays_len)]. *)
Definition check_inputs_length (args : list Series) : M unit :=
  let arrays_len := map (@List.length fval) args in
  if negb (forallb (fun a => (a =? hd 0%nat arrays_len)%nat) arrays_len)
  then (log_oops;; raise mismatched_lengths)
  else ret tt.

(** Lines 56-62. *)
Definition check_data_for_annual_trading_days (data : Series) : M unit :=
  if (List.length data <? 250)%nat || (257 <? List.length data)%nat
  then (log_oops;; raise not_a_year)
  else ret tt.

(** [except Exception as exception: logger.error(...); raise exception],
    the handler of the functions of this module. *)
Definition handler {A : Type} (e : exn) : M A :=
  match e with
  | PyException _ _ as exception => log_oops;; raise exception
  | KeyboardInterrupt | SystemExit | PyBaseException _ _ => raise e
  end.

(** Lines 573-585.  [talib.EMA] is taken as a parameter. *)
Definition ema (talib_EMA : Series -> period_arg -> result Series)
    (data : Series) (period : period_arg) : M Series :=
  try_except
    (emit (EvLog INFO "Calculating Exponential Moving Average for period = {}"
             [fmt_period period]);;
     check_period_type period;;
     check_for_period_error data period;;
     lift (talib_EMA data period))
    handler.

(** Lines 217-219: [for period in (short_period, long_period): ...]. *)
Fixpoint check_periods (data : Series) (periods : list period_arg) : M unit :=
  match periods with
  | [] => ret tt
  | period :: rest =>
      check_period_type period;;
      check_for_period_error data period;;
      check_periods data rest
  end.

(** Lines 211-224.  [talib.APO] is taken as a parameter. *)
Definition absolute_price_oscillator
    (talib_APO : Series -> period_arg -> period_arg -> Z -> result Series)
    (data : Series) (short_period long_period : period_arg) (matype : Z) : M Series :=
  try_except
    (emit (EvLog INFO
             "Calculating Absolute Price Oscillator for Short period = {} and Long period = {}"
             [fmt_period short_period; fmt_period long_period]);;
     check_periods data [short_period; long_period];;
     lift (talib_APO data short_period long_period matype))
    handler.

(** Lines 437-445.  [data.pct_change(1)] is taken as a parameter. *)
Definition daily_returns (pct_change : Series -> result Series) (data : Series) : M Series :=
  try_except
    (emit (EvLog INFO "Calculating Daily Returns..." []);;
     lift (pct_change data))
    handler.

(** Lines 1282-1297.  [pct_change] and the mean of a series are taken as
    parameters; [scale x n] is the product [x * n]. *)
Definition annual_return (pct_change : Series -> result Series)
    (mean : Series -> result fval) (scale : fval -> nat -> result fval)
    (data : Series) : M fval :=
  try_except
    (check_data_for_annual_trading_days data;;
     let trading_days := List.length data in
     emit (EvLog INFO
             "Calculating Annual return. Number of trading days in provided data: {}"
             [FNum (inject_Z (Z.of_nat trading_days))]);;
     returns <- daily_returns pct_change data;;
     mean_daily_returns <- lift (mean returns);;
     lift (scale mean_daily_returns trading_days))
    handler.

(** Lines 1672-1684.  [np.percentile(sorted(daily_returns), 100.0 -
    confidence_level)] is taken as a parameter. *)
Definition value_at_risk (percentile : Series -> period_arg -> result fval)
    (daily_returns : Series) (confidence_level : period_arg) : M fval :=
  try_except
    (emit (EvLog INFO "Calculating Value at Risk for confidence level = {}"
             [fmt_period confidence_level]);;
     (if negb (is_int confidence_level) || is_float confidence_level
      then raise bad_confidence_level
      else ret tt);;
     lift (percentile daily_returns confidence_level))
    (fun e => match e with
              | PyException _ _ as exception =>
                  emit (EvLog ERROR "Oops! An Error Occurred ⚠️" []);; raise exception
              | KeyboardInterrupt | SystemExit | PyBaseException _ _ => raise e
              end).

(** A period that passes both checks on [data]: an [int] not larger than
    the number of data points. *)
Definition accepted (data : Series) (period : period_arg) : Prop :=
  is_int period = true /\
  exists z, int_ period = Ok z /\ (z <= Z.of_nat (List.length data))%Z.

(** A period that passes the type check and fails the length check. *)
Definition too_long (data : Series) (period : period_arg) : Prop :=
  is_int period = true /\
  exists z, int_ period = Ok z /\ (Z.of_nat (List.length data) < z)%Z.

End analysis.

(** ** More sample collaborators *)

Module more_samples.


(** A world whose exchange cannot be reached. *)
Definition unreachable_exchange : World :=
  mkWorld (fun _ => Some sample.history) (fun _ => Some sample.feed) (fun _ => Ok "open")
          (fun _ => Raise (PyException "NetworkError" "exchange not reachable"))
          (fun _ => "monday") (fun _ => "2020-03-02").

Definition prices : analysis.Series :=
  [analysis.Num 10; analysis.Num 11; analysis.Num 12].

(** A stand-in for a talib moving average: the data unchanged. *)
Definition same_series (data : analysis.Series) (period : analysis.period_arg)
    : result analysis.Series := Ok data.

Definition same_series2 (data : analysis.Series) (short_period long_period : analysis.period_arg)
    (matype : Z) : result analysis.Series := Ok data.

Definition first_value (data : analysis.Series) (level : analysis.period_arg)
    : result analysis.fval := Ok (hd analysis.NaN data).

Definition year : analysis.Series := repeat (analysis.Num 1) 252.

End more_samples.

(** * Properties *)

(** ** The buffer *)

Module buffer_facts.
Import processing.

Section with_elements.
Context {A : Type}.
Implicit Types (b : Buffer A) (x : A) (xs : list A).

Lemma new_ok (C : Z) b : new C = Ok b -> (1 <= C)%Z /\ capacity b = Z.to_nat C /\ items b = [].
Proof.
  unfold new. destruct (C <? 1)%Z eqn:HC; intros H; inversion H; subst; simpl.
  apply Z.ltb_ge in HC. auto.
Qed.

Lemma new_total (C : Z) : (1 <= C)%Z -> new (A := A) C = Ok (mkBuffer (Z.to_nat C) []).
Proof.
  intros HC. unfold new. apply Z.ltb_ge in HC. now rewrite HC.
Qed.

Lemma capacity_append b x : capacity (append b x) = capacity b.
Proof. unfold append. now destruct (len b =? capacity b)%nat. Qed.

Lemma capacity_appends xs : forall b, capacity (appends b xs) = capacity b.
Proof.
  unfold appends. induction xs as [|x xs IH]; intros b; simpl; [reflexivity|].
  now rewrite IH, capacity_append.
Qed.

Lemma append_full b x :
  len b = capacity b -> items (append b x) = tl (items b) ++ [x].
Proof. intros H. unfold append. apply Nat.eqb_eq in H. now rewrite H. Qed.

Lemma append_room b x :
  (len b < capacity b)%nat -> items (append b x) = items b ++ [x].
Proof.
  intros H. unfold append.
  destruct (len b =? capacity b)%nat eqn:E; [apply Nat.eqb_eq in E; lia | reflexivity].
Qed.

Lemma tl_skipn (k : nat) (l : list A) : tl (skipn k l) = skipn (S k) l.
Proof.
  revert l. induction k as [|k IH]; intros [|y l]; simpl; try reflexivity.
  apply IH.
Qed.

Lemma lastn_all (n : nat) (l : list A) : (List.length l <= n)%nat -> lastn n l = l.
Proof.
  intros H. unfold lastn. now replace (List.length l - n)%nat with 0%nat by lia.
Qed.

Lemma length_lastn (n : nat) (l : list A) : List.length (lastn n l) = Nat.min n (List.length l).
Proof. unfold lastn. rewrite length_skipn. lia. Qed.

(** One append keeps the newest [capacity] elements of what was there plus
    the new one. *)
Lemma items_append b x :
  (1 <= capacity b)%nat -> (len b <= capacity b)%nat ->
  items (append b x) = lastn (capacity b) (items b ++ [x]).
Proof.
  intros Hc Hl. unfold lastn. rewrite length_app. simpl.
  destruct (Nat.eq_dec (len b) (capacity b)) as [E|E].
  - rewrite append_full by exact E. unfold len in E. rewrite E.
    replace (capacity b + 1 - capacity b)%nat with 1%nat by lia.
    destruct (items b) as [|y l]; simpl in *; [lia | reflexivity].
  - rewrite append_room by lia. unfold len in *.
    now replace (List.length (items b) + 1 - capacity b)%nat with 0%nat by lia.
Qed.

Lemma lastn_snoc (n : nat) (l : list A) x :
  (1 <= n)%nat -> lastn n (lastn n l ++ [x]) = lastn n (l ++ [x]).
Proof.
  intros Hn.
  destruct (Nat.le_gt_cases (List.length l) n) as [H|H].
  - now rewrite (lastn_all n l) by exact H.
  - unfold lastn at 1 3. rewrite !length_app, length_lastn. simpl List.length.
    replace (Nat.min n (List.length l) + 1 - n)%nat with 1%nat by lia.
    replace (List.length l + 1 - n)%nat with (S (List.length l - n)) by lia.
    rewrite <- (tl_skipn (List.length l - n) (l ++ [x])), <- (tl_skipn 0).
    unfold lastn. simpl skipn at 1. rewrite skipn_app.
    now replace (List.length l - n - List.length l)%nat with 0%nat by lia.
Qed.

(** After any run of appends the buffer holds the newest [capacity]
    elements, oldest first. *)
Lemma items_appends xs : forall b,
  (1 <= capacity b)%nat -> (len b <= capacity b)%nat ->
  items (appends b xs) = lastn (capacity b) (items b ++ xs).
Proof.
  induction xs as [|x xs IH] using rev_ind; intros b Hc Hl.
  - simpl. rewrite app_nil_r. symmetry. apply lastn_all. exact Hl.
  - unfold appends in *. rewrite fold_left_app. simpl.
    assert (Hcap := capacity_appends xs b). unfold appends in Hcap.
    rewrite items_append.
    + rewrite Hcap, IH by assumption. rewrite lastn_snoc by exact Hc.
      now rewrite app_assoc.
    + now rewrite Hcap.
    + rewrite Hcap. unfold len. rewrite IH by assumption. rewrite length_lastn. lia.
Qed.

Lemma len_appends xs b :
  (1 <= capacity b)%nat -> (len b <= capacity b)%nat ->
  (len (appends b xs) <= capacity b)%nat.
Proof.
  intros Hc Hl. unfold len at 1. rewrite items_appends by assumption.
  rewrite length_lastn. lia.
Qed.

End with_elements.

(** The two concrete scenarios of the specification. *)
Example capacity_three :
  items (appends (mkBuffer 3 []) [1; 2; 3; 4]%Z) = [2; 3; 4]%Z /\
  items (append (appends (mkBuffer 3 []) [1; 2; 3; 4]%Z) 5%Z) = [3; 4; 5]%Z.
Proof. split; reflexivity. Qed.

End buffer_facts.

(** ** The monad *)

Module monad_facts.

Section rules.
Context {A B : Type}.
Variable P : nat * event -> Prop.

Lemma satisfies_lift (r : result A) (Q : A -> Prop) :
  (forall a, r = Ok a -> Q a) -> satisfies (lift r) P Q.
Proof. intros H now. simpl. split; [constructor | exact H]. Qed.

Lemma satisfies_ret (a : A) (Q : A -> Prop) : Q a -> satisfies (ret a) P Q.
Proof.
  intros H now. simpl. split; [constructor | intros a' E; injection E as <-; exact H].
Qed.

Lemma satisfies_raise (e : exn) (Q : A -> Prop) : satisfies (raise e) P Q.
Proof. intros now. simpl. split; [constructor | discriminate]. Qed.

Lemma satisfies_unfinished (Q : A -> Prop) : satisfies unfinished P Q.
Proof. intros now. simpl. split; [constructor | discriminate]. Qed.

Lemma satisfies_call (e : event) (answer : nat -> result A) (Q : A -> Prop) :
  (forall now, P (now, e)) -> (forall now a, answer now = Ok a -> Q a) ->
  satisfies (call e answer) P Q.
Proof.
  intros HP HQ now. simpl. split; [repeat constructor; apply HP | apply HQ].
Qed.

Lemma satisfies_bind (m : M A) (f : A -> M B) (Q : A -> Prop) (R : B -> Prop) :
  satisfies m P Q -> (forall a, Q a -> satisfies (f a) P R) -> satisfies (bind m f) P R.
Proof.
  intros Hm Hf now. destruct (Hm now) as [Hev Hout]. unfold bind.
  destruct (outcome (m now)) as [a| |] eqn:E; simpl.
  - destruct (Hf a (Hout a eq_refl) (clock (m now))) as [Hev' Hout'].
    split; [apply Forall_app; now split | exact Hout'].
  - split; [exact Hev | discriminate].
  - split; [exact Hev | discriminate].
Qed.

Lemma satisfies_weaken (m : M A) (P' : nat * event -> Prop) (Q Q' : A -> Prop) :
  satisfies m P' Q' -> (forall te, P' te -> P te) -> (forall a, Q' a -> Q a) ->
  satisfies m P Q.
Proof.
  intros Hm HP HQ now. destruct (Hm now) as [Hev Hout]. split.
  - eapply Forall_impl; [exact HP | exact Hev].
  - intros a E. apply HQ, Hout, E.
Qed.

End rules.

Lemma satisfies_emit (P : nat * event -> Prop) (e : event) (Q : unit -> Prop) :
  (forall now, P (now, e)) -> Q tt -> satisfies (emit e) P Q.
Proof.
  intros HP HQ now. simpl. split; [repeat constructor; apply HP | intros [] _; assumption].
Qed.

Lemma satisfies_sleep (P : nat * event -> Prop) (seconds : Q) (R : unit -> Prop) :
  (forall now, P (now, EvSleep seconds)) -> R tt -> satisfies (sleep seconds) P R.
Proof.
  intros HP HR now. simpl. split; [repeat constructor; apply HP | intros [] _; assumption].
Qed.

Lemma satisfies_try {A : Type} (P : nat * event -> Prop) (body : M A) (handler : exn -> M A)
    (Q : A -> Prop) :
  satisfies body P Q -> (forall e, satisfies (handler e) P Q) ->
  satisfies (try_except body handler) P Q.
Proof.
  intros Hb Hh now. destruct (Hb now) as [Hev Hout]. unfold try_except.
  destruct (outcome (body now)) as [a|e|] eqn:E.
  - split; [exact Hev | now rewrite E].
  - destruct (Hh e (clock (body now))) as [Hev' Hout']. cbn [outcome clock events].
    split; [apply Forall_app; now split | exact Hout'].
  - split; [exact Hev | now rewrite E].
Qed.

(** The projections of a trace distribute over concatenation. *)
Lemma bt_calls_app (t1 t2 : trace) : bt_calls (t1 ++ t2) = bt_calls t1 ++ bt_calls t2.
Proof. apply flat_map_app. Qed.

Lemma live_calls_app (t1 t2 : trace) : live_calls (t1 ++ t2) = live_calls t1 ++ live_calls t2.
Proof. apply flat_map_app. Qed.

Lemma data_calls_app (t1 t2 : trace) : data_calls (t1 ++ t2) = data_calls t1 ++ data_calls t2.
Proof. apply flat_map_app. Qed.

Lemma new_backtests_app (t1 t2 : trace) :
  new_backtests (t1 ++ t2) = new_backtests t1 ++ new_backtests t2.
Proof. apply flat_map_app. Qed.

Lemma sleeps_app (t1 t2 : trace) : sleeps (t1 ++ t2) = sleeps t1 ++ sleeps t2.
Proof. apply flat_map_app. Qed.

Lemma status_reads_app (t1 t2 : trace) :
  status_reads (t1 ++ t2) = (status_reads t1 + status_reads t2)%nat.
Proof. unfold status_reads. now rewrite filter_app, length_app. Qed.

End monad_facts.

(** ** The polling loop of run_live *)

Module live_facts.
Import monad_facts.

Section polling.
Variable strategy : LiveStrategy.
Variable symbols : list string.
Variable data_feed : LiveFeed.
Variable bs : Z.
Variable delay : Q.
Variable fake : bool.

(** Appending to a buffer that is not full stores the bar and keeps every
    older one. *)
Lemma append_in_loop (batch : processing.Buffer Bar) (bar : Bar) :
  live_batch_inv bs batch ->
  processing.items (processing.append batch bar) = processing.items batch ++ [bar] /\
  processing.capacity (processing.append batch bar) = Z.to_nat bs /\
  (Z.of_nat (processing.len (processing.append batch bar)) <= bs)%Z.
Proof.
  intros [Hcap Hlen].
  assert (Hroom : (processing.len batch < processing.capacity batch)%nat) by lia.
  pose proof (buffer_facts.append_room batch bar Hroom) as Hitems.
  rewrite buffer_facts.capacity_append. repeat split; try assumption.
  unfold processing.len in *. rewrite Hitems, length_app. simpl. lia.
Qed.

(** The eviction of line 144 restores the invariant. *)
Lemma evict_in_loop (batch : processing.Buffer Bar) (bar : Bar) :
  live_batch_inv bs batch ->
  satisfies (if (Z.of_nat (processing.len (processing.append batch bar)) =? bs)%Z
             then lift (processing.popleft (processing.append batch bar))
             else ret (processing.append batch bar))
            (poll_event symbols bs delay fake) (live_batch_inv bs).
Proof.
  intros Hinv. destruct (append_in_loop batch bar Hinv) as (Hitems & Hcap & Hlen).
  destruct (Z.of_nat (processing.len (processing.append batch bar)) =? bs)%Z eqn:E.
  - apply Z.eqb_eq in E. apply satisfies_lift. intros b Hb.
    unfold processing.popleft in Hb. unfold processing.len in E.
    destruct (processing.items (processing.append batch bar)) as [|y rest] eqn:Hi.
    + discriminate.
    + injection Hb as <-. split; simpl; [exact Hcap|].
      unfold processing.len. simpl in *. lia.
  - apply Z.eqb_neq in E. apply satisfies_ret. split; [exact Hcap | lia].
Qed.

Lemma live_for_inv (todo : list string) : forall batch,
  incl todo symbols -> live_batch_inv bs batch ->
  satisfies (live_for strategy data_feed bs delay fake todo batch)
            (poll_event symbols bs delay fake) (live_batch_inv bs).
Proof.
  induction todo as [|symbol rest IH]; intros batch Hincl Hinv; simpl.
  - now apply satisfies_ret.
  - assert (Hin : In symbol symbols) by (apply Hincl; now left).
    apply satisfies_bind with (Q := fun _ => True).
    { apply satisfies_call; [intros now; unfold poll_event; simpl; auto | trivial]. }
    intros bar _. destruct (append_in_loop batch bar Hinv) as (Hitems & Hcap & Hlen).
    apply satisfies_bind with (Q := fun _ => True).
    { apply satisfies_call; [|trivial]. intros now. unfold poll_event. simpl.
      split; [intros ->; contradiction | exact Hlen]. }
    intros _ _. apply satisfies_bind with (Q := live_batch_inv bs).
    { now apply evict_in_loop. }
    intros batch' Hinv'. apply satisfies_bind with (Q := fun _ => True).
    { apply satisfies_sleep; [intros now; reflexivity | trivial]. }
    intros _ _. apply IH; [|exact Hinv'].
    intros s Hs. apply Hincl. now right.
Qed.

(** The inner [while] never exits normally: whatever the fuel, it is still
    running or it has raised. *)
Lemma live_while_never_returns (fuel : nat) : forall batch,
  live_batch_inv bs batch ->
  satisfies (live_while strategy symbols data_feed bs delay fake fuel batch)
            (poll_event symbols bs delay fake) (fun _ => False).
Proof.
  induction fuel as [|fuel IH]; intros batch Hinv; simpl.
  - apply satisfies_unfinished.
  - destruct Hinv as [Hcap Hlen]. apply Z.ltb_lt in Hlen as Hlt. rewrite Hlt.
    apply satisfies_bind with (Q := live_batch_inv bs).
    + apply live_for_inv; [apply incl_refl | now split].
    + intros batch' Hinv'. now apply IH.
Qed.

Variable w : World.
Variable ex : list string.

(** One turn of the outer [while], written out. *)
Lemma live_outer_step (fuel now : nat) :
  live_outer strategy symbols data_feed bs delay fake w ex (S fuel) now =
  match intraday_state w now with
  | Ok state =>
      if str_in state ex then Run (Ok tt) now [(now, EvIntradayStatus)]
      else match processing.new bs with
           | Ok batch =>
               let r := live_while strategy symbols data_feed bs delay fake fuel batch now in
               match outcome r with
               | Ok _ =>
                   let r' := live_outer strategy symbols data_feed bs delay fake w ex fuel
                               (clock r) in
                   Run (outcome r') (clock r')
                       ((now, EvIntradayStatus) :: events r ++ events r')
               | Raise e => Run (Raise e) (clock r) ((now, EvIntradayStatus) :: events r)
               | Unfinished => Run Unfinished (clock r) ((now, EvIntradayStatus) :: events r)
               end
           | Raise e => Run (Raise e) now [(now, EvIntradayStatus)]
           | Unfinished => Run Unfinished now [(now, EvIntradayStatus)]
           end
  | Raise e => Run (Raise e) now [(now, EvIntradayStatus)]
  | Unfinished => Run Unfinished now [(now, EvIntradayStatus)]
  end.
Proof.
  simpl. unfold bind, call, lift. simpl.
  destruct (intraday_state w now) as [state| |]; simpl; try reflexivity.
  destruct (str_in state ex); simpl; try reflexivity.
  destruct (processing.new bs) as [batch| |]; simpl; try reflexivity.
  destruct (outcome (live_while strategy symbols data_feed bs delay fake fuel batch now));
    reflexivity.
Qed.

(** One reading of the market state, then polling: the shape of every
    trace of the outer [while]. *)
Lemma live_outer_shape (fuel now : nat) :
  let r := live_outer strategy symbols data_feed bs delay fake w ex (S fuel) now in
  exists rest,
    events r = (now, EvIntradayStatus) :: rest /\ Forall (poll_event symbols bs delay fake) rest /\
    (outcome r = Ok tt ->
     rest = [] /\ exists state, intraday_state w now = Ok state /\ str_in state ex = true) /\
    (rest <> [] ->
     exists state, intraday_state w now = Ok state /\ str_in state ex = false).
Proof.
  intros r. subst r. rewrite live_outer_step.
  destruct (intraday_state w now) as [state| |] eqn:Hstate;
    try (exists []; simpl; split; [reflexivity|]; split; [constructor|];
         split; [discriminate | congruence]).
  destruct (str_in state ex) eqn:Hex.
  - exists []. simpl. split; [reflexivity|]. split; [constructor|].
    split; [intros _; split; [reflexivity | now exists state] | congruence].
  - destruct (processing.new bs) as [batch| |] eqn:Hnew;
      try (exists []; simpl; split; [reflexivity|]; split; [constructor|];
           split; [discriminate | congruence]).
    apply buffer_facts.new_ok in Hnew. destruct Hnew as (Hbs & Hcap & Hitems).
    assert (Hinv : live_batch_inv bs batch).
    { split; [exact Hcap|]. unfold processing.len. rewrite Hitems. simpl. lia. }
    destruct (live_while_never_returns fuel batch Hinv now) as [Hev Hout].
    cbv zeta.
    destruct (outcome (live_while strategy symbols data_feed bs delay fake fuel batch now))
      as [b| |] eqn:Hw; [destruct (Hout b eq_refl) | |];
      simpl; eexists; (split; [reflexivity|]); (split; [exact Hev|]);
      (split; [discriminate | intros _; now exists state]).
Qed.

Lemma live_outer_no_fuel (now : nat) :
  live_outer strategy symbols data_feed bs delay fake w ex 0 now = Run Unfinished now [].
Proof. reflexivity. Qed.

End polling.

(** The outer [while] depends on the market state at its first clock only. *)
Lemma live_outer_market (strategy : LiveStrategy) (symbols : list string)
    (data_feed : LiveFeed) (bs : Z) (delay : Q) (fake : bool) (w w' : World)
    (ex : list string) (fuel now : nat) :
  intraday_state w' now = intraday_state w now ->
  live_outer strategy symbols data_feed bs delay fake w' ex fuel now
  = live_outer strategy symbols data_feed bs delay fake w ex fuel now.
Proof.
  intros Hsame. destruct fuel as [|fuel]; [reflexivity|].
  rewrite !live_outer_step, Hsame.
  destruct (intraday_state w now) as [state| |]; try reflexivity.
  destruct (str_in state ex); try reflexivity.
  destruct (processing.new bs) as [batch| |] eqn:Hnew; try reflexivity.
  apply buffer_facts.new_ok in Hnew. destruct Hnew as (Hbs & Hcap & Hitems).
  assert (Hinv : live_batch_inv bs batch).
  { split; [exact Hcap|]. unfold processing.len. rewrite Hitems. simpl. lia. }
  destruct (live_while_never_returns strategy symbols data_feed bs delay fake fuel batch
              Hinv now) as [_ Hout].
  cbv zeta.
  destruct (outcome (live_while strategy symbols data_feed bs delay fake fuel batch now))
    as [b| |]; [destruct (Hout b eq_refl) | reflexivity | reflexivity].
Qed.

(** The [try] block of [run_live], written out up to the outer [while]. *)
Lemma live_body_step (w : World) (strategy : LiveStrategy) (args : LiveArgs) (fuel now : nat) :
  live_body w strategy args fuel now =
  match symbol_bucket args with
  | NotAList => Run (Raise (NameError "numpy")) now [entering strategy now]
  | PyList symbols =>
      if str_in (data_feed_type args)
           ["CRYPTO_live_feed"; "US_STOCKS_live_feed"; "CRYPTO_live_feed_level2"]
      then
        if str_in (data_feed_type args) ["CRYPTO_live_feed"; "CRYPTO_live_feed_level2"]
        then
          match exchange_attribute w "rateLimit" with
          | Ok delay =>
              match Data_Types_live w (data_feed_type args) with
              | Some data_feed =>
                  let r := live_outer strategy symbols data_feed (batch_size args) delay
                             (fake_feed args) w (exempted_states args) fuel now in
                  Run (outcome r) (clock r)
                      ([entering strategy now; (now, EvExchangeAttribute "rateLimit")]
                       ++ events r)
              | None =>
                  Run (Raise (KeyError (data_feed_type args))) now
                      [entering strategy now; (now, EvExchangeAttribute "rateLimit")]
              end
          | Raise e =>
              Run (Raise e) now [entering strategy now; (now, EvExchangeAttribute "rateLimit")]
          | Unfinished =>
              Run Unfinished now [entering strategy now; (now, EvExchangeAttribute "rateLimit")]
          end
        else
          match Data_Types_live w (data_feed_type args) with
          | Some data_feed =>
              let r := live_outer strategy symbols data_feed (batch_size args)
                         (data_feed_delay args) (fake_feed args) w (exempted_states args)
                         fuel now in
              Run (outcome r) (clock r) ([entering strategy now] ++ events r)
          | None => Run (Raise (KeyError (data_feed_type args))) now [entering strategy now]
          end
      else Run (Raise InvalidDataFeedType) now [entering strategy now]
  end.
Proof.
  unfold live_body, entering.
  destruct (symbol_bucket args) as [symbols|]; [|reflexivity].
  destruct (str_in (data_feed_type args)
              ["CRYPTO_live_feed"; "US_STOCKS_live_feed"; "CRYPTO_live_feed_level2"]);
    [|reflexivity].
  destruct (str_in (data_feed_type args) ["CRYPTO_live_feed"; "CRYPTO_live_feed_level2"]).
  - unfold bind, emit, call, lookup, ret, raise.
    cbn [outcome clock events negb app].
    destruct (exchange_attribute w "rateLimit") as [delay| |]; cbn [outcome clock events app];
      try reflexivity.
    destruct (Data_Types_live w (data_feed_type args)) as [data_feed|];
      cbn [outcome clock events app]; [|reflexivity].
    destruct (outcome (live_outer strategy symbols data_feed (batch_size args) delay
                         (fake_feed args) w (exempted_states args) fuel now)); reflexivity.
  - unfold bind, emit, call, lookup, ret, raise.
    cbn [outcome clock events negb app].
    destruct (Data_Types_live w (data_feed_type args)) as [data_feed|];
      cbn [outcome clock events app]; [|reflexivity].
    destruct (outcome (live_outer strategy symbols data_feed (batch_size args)
                         (data_feed_delay args) (fake_feed args) w (exempted_states args)
                         fuel now)); reflexivity.
Qed.

(** A live run depends on the market state at its first clock only. *)
Lemma run_live_market (w : World) (strategy : LiveStrategy) (args : LiveArgs)
    (market : nat -> result string) (fuel now : nat) :
  market now = intraday_state w now ->
  run_live (with_market w market) strategy args fuel now = run_live w strategy args fuel now.
Proof.
  intros Hsame. unfold run_live, try_except.
  assert (Hbody : live_body (with_market w market) strategy args fuel now
                  = live_body w strategy args fuel now).
  { rewrite !live_body_step. cbn [with_market exchange_attribute Data_Types_live].
    destruct (symbol_bucket args) as [symbols|]; [|reflexivity].
    destruct (str_in (data_feed_type args)
                ["CRYPTO_live_feed"; "US_STOCKS_live_feed"; "CRYPTO_live_feed_level2"]);
      [|reflexivity].
    destruct (str_in (data_feed_type args) ["CRYPTO_live_feed"; "CRYPTO_live_feed_level2"]).
    - destruct (exchange_attribute w "rateLimit") as [delay| |]; try reflexivity.
      destruct (Data_Types_live w (data_feed_type args)) as [data_feed|]; [|reflexivity].
      cbv zeta. now rewrite (live_outer_market _ _ _ _ _ _ w (with_market w market)).
    - destruct (Data_Types_live w (data_feed_type args)) as [data_feed|]; [|reflexivity].
      cbv zeta. now rewrite (live_outer_market _ _ _ _ _ _ w (with_market w market)). }
  now rewrite Hbody.
Qed.

Lemma quiet_projections (tr : trace) :
  Forall quiet_event tr -> live_calls tr = [] /\ data_calls tr = [] /\ sleeps tr = [].
Proof.
  induction 1 as [|[t e] tr Hq _ (IH1 & IH2 & IH3)]; [now repeat split|].
  unfold live_calls, data_calls, sleeps in *. simpl. rewrite IH1, IH2, IH3.
  destruct e; simpl in Hq; try contradiction; now repeat split.
Qed.

Lemma poll_no_status_read symbols bs delay fake (tr : trace) :
  Forall (poll_event symbols bs delay fake) tr -> status_reads tr = 0%nat.
Proof.
  induction 1 as [|[t e] tr Hp _ IH]; [reflexivity|].
  unfold status_reads in *. simpl.
  destruct e; simpl in Hp; try contradiction; exact IH.
Qed.

(** Every trace of the [try] block of [run_live] is a quiet prelude with at
    most one reading of the market state, followed by what the polling loop
    records. *)
Lemma live_body_shape (w : World) (strategy : LiveStrategy) (args : LiveArgs) (fuel now : nat) :
  exists pre rest,
    events (live_body w strategy args fuel now) = pre ++ rest /\
    Forall quiet_event pre /\ (status_reads pre <= 1)%nat /\
    (outcome (live_body w strategy args fuel now) = Ok tt ->
     rest = [] /\
     exists state, intraday_state w now = Ok state /\
                   str_in state (exempted_states args) = true) /\
    (rest <> [] ->
     (exists state, intraday_state w now = Ok state /\
                    str_in state (exempted_states args) = false) /\
     exists symbols delay,
       symbol_bucket args = PyList symbols /\
       str_in (data_feed_type args)
         ["CRYPTO_live_feed"; "US_STOCKS_live_feed"; "CRYPTO_live_feed_level2"] = true /\
       pacing w args delay /\
       Forall (poll_event symbols (batch_size args) delay (fake_feed args)) rest).
Proof.
  assert (Hstop : forall (o : result unit) (t : nat) (pre : trace),
             o <> Ok tt -> Forall quiet_event pre -> (status_reads pre <= 1)%nat ->
             exists pre' rest,
               events (Run o t pre) = pre' ++ rest /\
               Forall quiet_event pre' /\ (status_reads pre' <= 1)%nat /\
               (outcome (Run o t pre) = Ok tt ->
                rest = [] /\
                exists state, intraday_state w now = Ok state /\
                              str_in state (exempted_states args) = true) /\
               (rest <> [] ->
                (exists state, intraday_state w now = Ok state /\
                               str_in state (exempted_states args) = false) /\
                exists symbols delay,
                  symbol_bucket args = PyList symbols /\
                  str_in (data_feed_type args)
                    ["CRYPTO_live_feed"; "US_STOCKS_live_feed"; "CRYPTO_live_feed_level2"]
                  = true /\
                  pacing w args delay /\
                  Forall (poll_event symbols (batch_size args) delay (fake_feed args)) rest)).
  { intros o t pre Ho Hq Hs. exists pre, []. simpl. rewrite app_nil_r.
    split; [reflexivity|]. split; [exact Hq|]. split; [exact Hs|].
    split; [intros E; contradiction | intros E; congruence]. }
  assert (Hloop : forall symbols delay data_feed (pre : trace),
             symbol_bucket args = PyList symbols ->
             str_in (data_feed_type args)
               ["CRYPTO_live_feed"; "US_STOCKS_live_feed"; "CRYPTO_live_feed_level2"] = true ->
             pacing w args delay ->
             Forall quiet_event pre -> status_reads pre = 0%nat ->
             let r := live_outer strategy symbols data_feed (batch_size args) delay
                        (fake_feed args) w (exempted_states args) fuel now in
             exists pre' rest,
               events (Run (outcome r) (clock r) (pre ++ events r)) = pre' ++ rest /\
               Forall quiet_event pre' /\ (status_reads pre' <= 1)%nat /\
               (outcome (Run (outcome r) (clock r) (pre ++ events r)) = Ok tt ->
                rest = [] /\
                exists state, intraday_state w now = Ok state /\
                              str_in state (exempted_states args) = true) /\
               (rest <> [] ->
                (exists state, intraday_state w now = Ok state /\
                               str_in state (exempted_states args) = false) /\
                exists symbols delay,
                  symbol_bucket args = PyList symbols /\
                  str_in (data_feed_type args)
                    ["CRYPTO_live_feed"; "US_STOCKS_live_feed"; "CRYPTO_live_feed_level2"]
                  = true /\
                  pacing w args delay /\
                  Forall (poll_event symbols (batch_size args) delay (fake_feed args)) rest)).
  { intros symbols delay data_feed pre Hb Hf Hp Hq Hs r. subst r.
    destruct fuel as [|fuel'].
    - rewrite live_outer_no_fuel. cbn [outcome clock events]. rewrite app_nil_r.
      apply (Hstop Unfinished now pre); [discriminate | exact Hq | lia].
    - destruct (live_outer_shape strategy symbols data_feed (batch_size args) delay
                  (fake_feed args) w (exempted_states args) fuel' now)
        as (rest & Hev & Hpoll & Hok & Hrest).
      exists (pre ++ [(now, EvIntradayStatus)]), rest. cbn [outcome clock events]. rewrite Hev.
      split; [now rewrite <- app_assoc|].
      split; [apply Forall_app; split; [exact Hq | repeat constructor]|].
      split; [rewrite status_reads_app, Hs; unfold status_reads; simpl; lia|].
      split; [exact Hok|].
      intros Hne. split; [now apply Hrest|]. now exists symbols, delay. }
  rewrite live_body_step. unfold entering.
  destruct (symbol_bucket args) as [symbols|] eqn:Hb;
    [|apply Hstop; [discriminate | repeat constructor | unfold status_reads; simpl; lia]].
  destruct (str_in (data_feed_type args)
              ["CRYPTO_live_feed"; "US_STOCKS_live_feed"; "CRYPTO_live_feed_level2"]) eqn:Hf;
    [|apply Hstop; [discriminate | repeat constructor | unfold status_reads; simpl; lia]].
  destruct (str_in (data_feed_type args) ["CRYPTO_live_feed"; "CRYPTO_live_feed_level2"])
    eqn:Hc.
  - destruct (exchange_attribute w "rateLimit") as [delay| |] eqn:Hx;
      try (apply Hstop; [discriminate | repeat constructor | unfold status_reads; simpl; lia]).
    destruct (Data_Types_live w (data_feed_type args)) as [data_feed|];
      [|apply Hstop; [discriminate | repeat constructor | unfold status_reads; simpl; lia]].
    apply Hloop; try assumption; try reflexivity; [|repeat constructor].
    unfold pacing. now rewrite Hc.
  - destruct (Data_Types_live w (data_feed_type args)) as [data_feed|];
      [|apply Hstop; [discriminate | repeat constructor | unfold status_reads; simpl; lia]].
    apply Hloop; try assumption; try reflexivity; [|repeat constructor].
    unfold pacing. now rewrite Hc.
Qed.

(** The two [except] clauses of [run_live], by class of exception. *)
Lemma live_handler_run (strategy : LiveStrategy) (e : exn) (now : nat) :
  live_handler strategy e now =
  if is_interrupt e
  then Run (Ok tt) now
         [(now, EvPrint newline);
          (now, EvLog CRITICAL "User's keyboard prompt stopped {}" [FStr (live_name strategy)])]
  else if is_exception e
  then Run (Raise e) now
         [(now, EvLog CRITICAL "Exiting {}...‼️" [FStr (live_name strategy)]);
          (now, EvLog ERROR "Oops! Something went wrong ⚠️" [])]
  else Run (Raise e) now [].
Proof. destruct e; reflexivity. Qed.

(** [run_live] adds to its [try] block only what a handler logs. *)
Lemma run_live_events (w : World) (strategy : LiveStrategy) (args : LiveArgs) (fuel now : nat) :
  exists post,
    events (run_live w strategy args fuel now)
    = events (live_body w strategy args fuel now) ++ post /\
    Forall quiet_event post /\ status_reads post = 0%nat.
Proof.
  unfold run_live, try_except.
  destruct (outcome (live_body w strategy args fuel now)) as [a|e|];
    try solve [exists []; rewrite app_nil_r; repeat constructor].
  rewrite live_handler_run. destruct (is_interrupt e), (is_exception e);
    cbn [outcome clock events];
    eexists; (split; [reflexivity | split; [repeat constructor | reflexivity]]).
Qed.

(** [run_live] returns normally only if its [try] block did, or if the
    block was interrupted. *)
Lemma run_live_returns (w : World) (strategy : LiveStrategy) (args : LiveArgs) (fuel now : nat) :
  outcome (run_live w strategy args fuel now) = Ok tt ->
  outcome (live_body w strategy args fuel now) = Ok tt \/
  exists e, is_interrupt e = true /\ outcome (live_body w strategy args fuel now) = Raise e.
Proof.
  unfold run_live, try_except.
  destruct (outcome (live_body w strategy args fuel now)) as [[]|e|] eqn:Hb.
  - intros _. now left.
  - rewrite live_handler_run. destruct (is_interrupt e) eqn:He; cbn [outcome].
    + intros _. right. now exists e.
    + destruct (is_exception e); discriminate.
  - rewrite Hb. discriminate.
Qed.

(** The whole trace of a live run: prelude, polling, epilogue. *)
Lemma run_live_shape (w : World) (strategy : LiveStrategy) (args : LiveArgs) (fuel now : nat) :
  exists pre rest post,
    events (run_live w strategy args fuel now) = pre ++ rest ++ post /\
    Forall quiet_event pre /\ (status_reads pre <= 1)%nat /\
    Forall quiet_event post /\ status_reads post = 0%nat /\
    (outcome (live_body w strategy args fuel now) = Ok tt ->
     rest = [] /\
     exists state, intraday_state w now = Ok state /\
                   str_in state (exempted_states args) = true) /\
    (rest <> [] ->
     (exists state, intraday_state w now = Ok state /\
                    str_in state (exempted_states args) = false) /\
     exists symbols delay,
       symbol_bucket args = PyList symbols /\
       str_in (data_feed_type args)
         ["CRYPTO_live_feed"; "US_STOCKS_live_feed"; "CRYPTO_live_feed_level2"] = true /\
       pacing w args delay /\
       Forall (poll_event symbols (batch_size args) delay (fake_feed args)) rest).
Proof.
  destruct (run_live_events w strategy args fuel now) as (post & Hev & Hq & Hs).
  destruct (live_body_shape w strategy args fuel now)
    as (pre & rest & Hev' & Hpre & Hreads & Hok & Hrest).
  exists pre, rest, post. rewrite Hev, Hev', <- app_assoc. auto 10.
Qed.

(** What the projections of a live trace come to. *)
Lemma live_projections (pre rest post : trace) :
  Forall quiet_event pre -> Forall quiet_event post ->
  live_calls (pre ++ rest ++ post) = live_calls rest /\
  data_calls (pre ++ rest ++ post) = data_calls rest /\
  sleeps (pre ++ rest ++ post) = sleeps rest.
Proof.
  intros Hpre Hpost.
  destruct (quiet_projections pre Hpre) as (H1 & H2 & H3).
  destruct (quiet_projections post Hpost) as (H4 & H5 & H6).
  rewrite !live_calls_app, !data_calls_app, !sleeps_app.
  rewrite H1, H2, H3, H4, H5, H6, !app_nil_r. auto.
Qed.

Lemma poll_live_calls symbols bs delay fake (tr : trace) t data_batch :
  Forall (poll_event symbols bs delay fake) tr -> In (t, data_batch) (live_calls tr) ->
  symbols <> [] /\ (Z.of_nat (List.length data_batch) <= bs)%Z.
Proof.
  induction 1 as [|[t' e] tr Hp _ IH]; [contradiction|].
  unfold live_calls in *. simpl.
  destruct e; simpl; try exact IH.
  intros [E|Hin]; [|now apply IH]. injection E as <- <-. exact Hp.
Qed.

Lemma poll_data_calls symbols bs delay fake (tr : trace) (e : event) :
  Forall (poll_event symbols bs delay fake) tr -> In e (data_calls tr) ->
  exists symbol, e = EvFeedCall symbol fake /\ In symbol symbols.
Proof.
  induction 1 as [|[t' e'] tr Hp _ IH]; [contradiction|].
  unfold data_calls in *. simpl.
  destruct e'; simpl; try exact IH; simpl in Hp; try contradiction.
  intros [E|Hin]; [|now apply IH]. subst e. destruct Hp as [Hin ->]. now exists symbol.
Qed.

Lemma poll_sleeps symbols bs delay fake (tr : trace) (seconds : Q) :
  Forall (poll_event symbols bs delay fake) tr -> In seconds (sleeps tr) ->
  seconds = (delay / 1000)%Q.
Proof.
  induction 1 as [|[t' e] tr Hp _ IH]; [contradiction|].
  unfold sleeps in *. simpl.
  destruct e; simpl; try exact IH.
  intros [E|Hin]; [|now apply IH]. subst. exact Hp.
Qed.

Lemma str_in_spec (x : string) (xs : list string) : str_in x xs = true <-> In x xs.
Proof.
  unfold str_in. rewrite existsb_exists. split.
  - intros (y & Hin & E). apply String.eqb_eq in E. now subst.
  - intros Hin. exists x. split; [exact Hin | apply String.eqb_refl].
Qed.

Lemma recognised_feed_spec (feed : string) :
  str_in feed ["CRYPTO_live_feed"; "US_STOCKS_live_feed"; "CRYPTO_live_feed_level2"] = true
  <-> recognised_feed feed.
Proof.
  rewrite str_in_spec. unfold recognised_feed. simpl. intuition congruence.
Qed.

Lemma crypto_feed_spec (feed : string) :
  str_in feed ["CRYPTO_live_feed"; "CRYPTO_live_feed_level2"] = true <-> crypto_feed feed.
Proof.
  rewrite str_in_spec. unfold crypto_feed. simpl. intuition congruence.
Qed.

End live_facts.

(** ** The polling loop makes progress *)

Module live_progress.
Import monad_facts live_facts.

Section polling.
Variable strategy : LiveStrategy.
Variable symbols : list string.
Variable data_feed : LiveFeed.
Variable bs : Z.
Variable delay : Q.
Variable fake : bool.

Hypothesis feed_answers : forall symbol now, exists bar, data_feed symbol fake now = Ok bar.
Hypothesis strategy_returns : forall data_batch, live_call strategy data_batch = Ok tt.

(** The eviction of line 144 always succeeds. *)
Lemma evict_returns (batch : processing.Buffer Bar) (bar : Bar) :
  live_batch_inv bs batch ->
  exists batch',
    (if (Z.of_nat (processing.len (processing.append batch bar)) =? bs)%Z
     then lift (processing.popleft (processing.append batch bar))
     else ret (processing.append batch bar)) = lift (Ok batch') /\
    live_batch_inv bs batch'.
Proof.
  intros Hinv. destruct (append_in_loop bs batch bar Hinv) as (Hitems & Hcap & Hlen).
  destruct (Z.of_nat (processing.len (processing.append batch bar)) =? bs)%Z eqn:E.
  - apply Z.eqb_eq in E. unfold processing.popleft, processing.len in *.
    destruct (processing.items (processing.append batch bar)) as [|y rest] eqn:Hi.
    + destruct (processing.items batch); discriminate Hitems.
    + eexists. split; [reflexivity|]. split; [exact Hcap|].
      unfold processing.len. simpl in *. lia.
  - apply Z.eqb_neq in E. eexists. split; [reflexivity|]. split; [exact Hcap | lia].
Qed.

(** One pass over the bucket polls every symbol once and returns. *)
Lemma live_for_polls (todo : list string) : forall batch now,
  live_batch_inv bs batch ->
  exists batch',
    outcome (live_for strategy data_feed bs delay fake todo batch now) = Ok batch' /\
    live_batch_inv bs batch' /\
    List.length (live_calls (events (live_for strategy data_feed bs delay fake todo batch now)))
    = List.length todo.
Proof.
  induction todo as [|symbol rest IH]; intros batch now Hinv.
  - exists batch. simpl. auto.
  - destruct (feed_answers symbol now) as [bar Hbar].
    destruct (evict_returns batch bar Hinv) as (batch' & Hevict & Hinv').
    destruct (IH batch' (S now) Hinv') as (batch'' & Hout & Hinv'' & Hcalls).
    exists batch''. cbn [live_for].
    unfold bind, call, sleep. cbn [outcome clock events].
    rewrite Hbar. cbn [outcome clock events]. rewrite strategy_returns.
    cbn [outcome clock events]. rewrite Hevict. unfold lift.
    cbn [outcome clock events]. rewrite Hout. cbn [outcome clock events].
    split; [reflexivity|]. split; [exact Hinv''|].
    rewrite !live_calls_app, !length_app, Hcalls. reflexivity.
Qed.

(** With [fuel] turns the inner [while] is still running and has invoked
    the strategy [fuel] times per symbol. *)
Lemma live_while_polls (fuel : nat) : forall batch now,
  live_batch_inv bs batch ->
  outcome (live_while strategy symbols data_feed bs delay fake fuel batch now) = Unfinished /\
  List.length
    (live_calls (events (live_while strategy symbols data_feed bs delay fake fuel batch now)))
  = (fuel * List.length symbols)%nat.
Proof.
  induction fuel as [|fuel IH]; intros batch now Hinv; [now split|].
  cbn [live_while]. destruct Hinv as [Hcap Hlen]. apply Z.ltb_lt in Hlen as Hlt. rewrite Hlt.
  destruct (live_for_polls symbols batch now (conj Hcap Hlen))
    as (batch' & Hout & Hinv' & Hcalls).
  unfold bind. rewrite Hout. cbn [outcome clock events].
  destruct (IH batch' (clock (live_for strategy data_feed bs delay fake symbols batch now))
              Hinv') as [Hout' Hcalls'].
  split; [exact Hout'|].
  rewrite live_calls_app, length_app, Hcalls, Hcalls'. simpl. reflexivity.
Qed.

End polling.

(** A live run on the equities feed, started while the market state is not
    exempted, has not finished after any number of turns and has invoked
    the strategy once per symbol and turn. *)
Lemma live_run_keeps_polling (w : World) (strategy : LiveStrategy) (args : LiveArgs)
    (symbols : list string) (data_feed : LiveFeed) (state : string) (fuel now : nat) :
  symbol_bucket args = PyList symbols ->
  data_feed_type args = "US_STOCKS_live_feed" ->
  Data_Types_live w "US_STOCKS_live_feed" = Some data_feed ->
  intraday_state w now = Ok state ->
  str_in state (exempted_states args) = false ->
  (1 <= batch_size args)%Z ->
  (forall symbol now, exists bar, data_feed symbol (fake_feed args) now = Ok bar) ->
  (forall data_batch, live_call strategy data_batch = Ok tt) ->
  outcome (run_live w strategy args (S fuel) now) = Unfinished /\
  List.length (live_calls (events (run_live w strategy args (S fuel) now)))
  = (fuel * List.length symbols)%nat.
Proof.
  intros Hbucket Hfeed Hsource Hstate Hex Hbs Hanswers Hreturns.
  unfold run_live, try_except.
  rewrite live_body_step, Hbucket, Hfeed. cbn [str_in existsb String.eqb Ascii.eqb Bool.eqb orb].
  rewrite Hsource. cbv zeta. rewrite live_outer_step, Hstate, Hex.
  rewrite buffer_facts.new_total by exact Hbs. cbv zeta.
  destruct (live_while_polls strategy symbols data_feed (batch_size args)
              (data_feed_delay args) (fake_feed args) Hanswers Hreturns fuel
              (processing.mkBuffer (Z.to_nat (batch_size args)) []) now) as [Hout Hcalls].
  { split; [reflexivity|]. unfold processing.len. simpl. lia. }
  rewrite Hout. cbn [outcome clock events].
  split; [reflexivity|].
  rewrite live_calls_app.
  change ((now, EvIntradayStatus) :: ?l) with ([(now, EvIntradayStatus)] ++ l).
  rewrite live_calls_app. exact Hcalls.
Qed.

End live_progress.

(** * The claims about run_live *)

Section run_live_claims.
Import monad_facts live_facts.

Variable w : World.
Variable strategy : LiveStrategy.
Variable args : LiveArgs.
Variables fuel now : nat.

(** C8.  A live run whose data-feed identifier is none of the three
    recognised ones (equities live feed, crypto live feed level 1, crypto
    live feed level 2) raises [InvalidDataFeedType] before the loop starts:
    the market state is not read, no feed is called, the strategy is never
    invoked; the failure is logged and re-raised. *)
Theorem unrecognised_feed_rejected (symbols : list string) :
  symbol_bucket args = PyList symbols ->
  ~ recognised_feed (data_feed_type args) ->
  run_live w strategy args fuel now =
    Run (Raise InvalidDataFeedType) now
      [entering strategy now;
       (now, EvLog CRITICAL "Exiting {}...‼️" [FStr (live_name strategy)]);
       (now, EvLog ERROR "Oops! Something went wrong ⚠️" [])] /\
  live_calls (events (run_live w strategy args fuel now)) = [] /\
  data_calls (events (run_live w strategy args fuel now)) = [] /\
  status_reads (events (run_live w strategy args fuel now)) = 0%nat.
Proof.
  intros Hb Hfeed.
  assert (Hf : str_in (data_feed_type args)
                 ["CRYPTO_live_feed"; "US_STOCKS_live_feed"; "CRYPTO_live_feed_level2"] = false).
  { destruct (str_in _ _) eqn:E; [|reflexivity]. now apply recognised_feed_spec in E. }
  assert (Hrun : run_live w strategy args fuel now =
                 Run (Raise InvalidDataFeedType) now
                   [entering strategy now;
                    (now, EvLog CRITICAL "Exiting {}...‼️" [FStr (live_name strategy)]);
                    (now, EvLog ERROR "Oops! Something went wrong ⚠️" [])]).
  { unfold run_live, try_except. rewrite live_body_step, Hb, Hf. reflexivity. }
  rewrite Hrun. repeat split.
Qed.

(** C9.  Every sleep of a live run lasts the exchange's rate limit (over
    1000) when the feed identifier is one of the two crypto variants, the
    caller's [data_feed_delay] being replaced, and the caller's
    [data_feed_delay] (over 1000) for the other recognised identifier. *)
Theorem pacing_delay_selection (seconds : Q) :
  In seconds (sleeps (events (run_live w strategy args fuel now))) ->
  (crypto_feed (data_feed_type args) ->
   exists rate, exchange_attribute w "rateLimit" = Ok rate /\ seconds = (rate / 1000)%Q) /\
  (data_feed_type args = "US_STOCKS_live_feed" ->
   seconds = (data_feed_delay args / 1000)%Q).
Proof.
  intros Hin.
  destruct (run_live_shape w strategy args fuel now)
    as (pre & rest & post & Hev & Hpre & _ & Hpost & _ & _ & Hrest).
  rewrite Hev in Hin.
  destruct (live_projections pre rest post Hpre Hpost) as (_ & _ & Hs). rewrite Hs in Hin.
  assert (Hne : rest <> []) by (intros ->; contradiction).
  destruct (Hrest Hne) as (_ & symbols & delay & _ & _ & Hpace & Hpoll).
  pose proof (poll_sleeps _ _ _ _ _ _ Hpoll Hin) as ->.
  unfold pacing in Hpace. split.
  - intros Hc. apply crypto_feed_spec in Hc. rewrite Hc in Hpace. now exists delay.
  - intros Hus. rewrite Hus in Hpace. simpl in Hpace. now subst.
Qed.

(** C4.  In a live run the market state is read at most once, so the run
    is the same whatever the market state becomes after its first clock;
    the inner [while], started on the buffer of line 137, never exits
    normally whatever the fuel; and the run returns normally only if that
    single reading found an exempted state, so that the loop was never
    entered, or if the [try] block was stopped by an interrupt. *)
Theorem live_loop_never_exits_normally :
  (status_reads (events (run_live w strategy args fuel now)) <= 1)%nat /\
  (forall market, market now = intraday_state w now ->
     run_live (with_market w market) strategy args fuel now
     = run_live w strategy args fuel now) /\
  (forall symbols data_feed delay batch n t b,
     processing.new (batch_size args) = Ok batch ->
     outcome (live_while strategy symbols data_feed (batch_size args) delay (fake_feed args)
                n batch t) <> Ok b) /\
  (outcome (run_live w strategy args fuel now) = Ok tt ->
   (exists state, intraday_state w now = Ok state /\
                  str_in state (exempted_states args) = true /\
                  live_calls (events (run_live w strategy args fuel now)) = []) \/
   (exists e, is_interrupt e = true /\ outcome (live_body w strategy args fuel now) = Raise e)).
Proof.
  destruct (run_live_shape w strategy args fuel now)
    as (pre & rest & post & Hev & Hpre & Hreads & Hpost & Hreads' & Hok & Hrest).
  split; [|split; [|split]].
  - rewrite Hev, !status_reads_app, Hreads'.
    destruct rest as [|te rest'].
    + unfold status_reads at 2. simpl. lia.
    + assert (Hne : te :: rest' <> []) by discriminate.
      destruct (Hrest Hne) as (_ & symbols & delay & _ & _ & _ & Hpoll).
      rewrite (poll_no_status_read _ _ _ _ _ Hpoll). lia.
  - intros market. apply run_live_market.
  - intros symbols data_feed delay batch n t b Hnew Hout.
    apply buffer_facts.new_ok in Hnew. destruct Hnew as (Hbs & Hcap & Hitems).
    assert (Hinv : live_batch_inv (batch_size args) batch).
    { split; [exact Hcap|]. unfold processing.len. rewrite Hitems. simpl. lia. }
    destruct (live_while_never_returns strategy symbols data_feed (batch_size args) delay
                (fake_feed args) n batch Hinv t) as [_ Hnever].
    exact (Hnever b Hout).
  - intros Hrun. apply run_live_returns in Hrun. destruct Hrun as [Hbody|Hint].
    + left. destruct (Hok Hbody) as (-> & state & Hstate & Hex).
      exists state. split; [exact Hstate|]. split; [exact Hex|].
      rewrite Hev. destruct (live_projections pre [] post Hpre Hpost) as (-> & _). reflexivity.
    + now right.
Qed.

(** No window handed to the strategy is longer than [batch_size]. *)
Lemma live_window_bounded (t : nat) (data_batch : DataFrame) :
  In (t, data_batch) (live_calls (events (run_live w strategy args fuel now))) ->
  (Z.of_nat (List.length data_batch) <= batch_size args)%Z.
Proof.
  intros Hin.
  destruct (run_live_shape w strategy args fuel now)
    as (pre & rest & post & Hev & Hpre & _ & Hpost & _ & _ & Hrest).
  rewrite Hev in Hin.
  destruct (live_projections pre rest post Hpre Hpost) as (Hl & _). rewrite Hl in Hin.
  assert (Hne : rest <> []) by (intros ->; contradiction).
  destruct (Hrest Hne) as (_ & symbols & delay & _ & _ & _ & Hpoll).
  now destruct (poll_live_calls _ _ _ _ _ _ _ Hpoll Hin).
Qed.

(** A strategy is invoked only in a run whose reading of the market state,
    at the start, was outside [exempted_states] as the caller wrote it. *)
Lemma invoked_after_open_reading (t : nat) (data_batch : DataFrame) :
  In (t, data_batch) (live_calls (events (run_live w strategy args fuel now))) ->
  exists state, intraday_state w now = Ok state /\
                str_in state (exempted_states args) = false.
Proof.
  intros Hin.
  destruct (run_live_shape w strategy args fuel now)
    as (pre & rest & post & Hev & Hpre & _ & Hpost & _ & _ & Hrest).
  rewrite Hev in Hin.
  destruct (live_projections pre rest post Hpre Hpost) as (Hl & _). rewrite Hl in Hin.
  assert (Hne : rest <> []) by (intros ->; contradiction).
  now destruct (Hrest Hne) as (Hstate & _).
Qed.

(** With an empty bucket no feed is called and the strategy is not
    invoked. *)
Lemma live_empty_bucket :
  symbol_bucket args = PyList [] ->
  data_calls (events (run_live w strategy args fuel now)) = [] /\
  live_calls (events (run_live w strategy args fuel now)) = [].
Proof.
  intros Hb.
  destruct (run_live_shape w strategy args fuel now)
    as (pre & rest & post & Hev & Hpre & _ & Hpost & _ & _ & Hrest).
  rewrite Hev.
  destruct (live_projections pre rest post Hpre Hpost) as (-> & -> & _).
  destruct rest as [|te rest']; [now split|].
  assert (Hne : te :: rest' <> []) by discriminate.
  destruct (Hrest Hne) as (_ & symbols & delay & Hsym & _ & _ & Hpoll).
  rewrite Hb in Hsym. injection Hsym as <-.
  split.
  - destruct (data_calls (te :: rest')) as [|e l] eqn:E; [reflexivity|].
    destruct (poll_data_calls _ _ _ _ (te :: rest') e Hpoll) as (s & _ & []).
    rewrite E. now left.
  - destruct (live_calls (te :: rest')) as [|[t d] l] eqn:E; [reflexivity|].
    destruct (poll_live_calls _ _ _ _ (te :: rest') t d Hpoll) as [Hne' _].
    + rewrite E. now left.
    + now contradiction Hne'.
Qed.

End run_live_claims.

(** * run_backtest *)

Module backtest_facts.
Import monad_facts.

Lemma length_windows_after (bars : list Bar) : forall seen,
  List.length (windows_after seen bars) = List.length bars.
Proof. induction bars as [|bar rest IH]; intros seen; simpl; [reflexivity | now rewrite IH]. Qed.

Lemma newest_windows_after (bars : list Bar) : forall seen,
  map newest (windows_after seen bars) = bars.
Proof.
  induction bars as [|bar rest IH]; intros seen; simpl; [reflexivity|].
  rewrite IH. unfold newest. now rewrite last_last.
Qed.

Lemma last_cons {A : Type} (l : list A) : forall x d, last (x :: l) d = last l x.
Proof.
  induction l as [|y l IH]; intros x d; [reflexivity|].
  change (last (x :: y :: l) d) with (last (y :: l) d).
  now rewrite (IH y d), (IH y x).
Qed.

Lemma last_windows_after (bars : list Bar) : forall seen,
  last (windows_after seen bars) seen = seen ++ bars.
Proof.
  induction bars as [|bar rest IH]; intros seen; [now rewrite app_nil_r|].
  change (windows_after seen (bar :: rest))
    with ((seen ++ [bar]) :: windows_after (seen ++ [bar]) rest).
  now rewrite last_cons, IH, <- app_assoc.
Qed.

(** One turn of the loop over the rows, written out. *)
Lemma backtest_rows_step (strategy : BacktestStrategy) (datetime : Z) (bar : Bar)
    (rest : list (Z * Bar)) (batch : processing.Buffer Bar) (backtest : bt.Backtest)
    (now : nat) :
  backtest_rows strategy ((datetime, bar) :: rest) batch backtest now =
  let batch' := processing.append batch bar in
  let backtest' := bt.update_bar backtest datetime bar in
  let data_batch := processing.snapshot batch' in
  let seen := [(now, EvUpdateBar datetime bar);
               (now, EvStrategyBacktest backtest' data_batch)] in
  match bt_call strategy backtest' data_batch with
  | Ok backtest'' =>
      let r := backtest_rows strategy rest batch' backtest'' now in
      Run (outcome r) (clock r) (seen ++ events r)
  | Raise e => Run (Raise e) now seen
  | Unfinished => Run Unfinished now seen
  end.
Proof.
  simpl. unfold bind, emit, call. cbn [outcome clock events app].
  destruct (bt_call strategy _ _) as [backtest''| |]; reflexivity.
Qed.

(** Replaying a series records nothing but forwarded bars and strategy
    calls, and takes no time. *)
Lemma backtest_rows_replay (strategy : BacktestStrategy) (rows : list (Z * Bar)) :
  forall batch backtest now,
    Forall replay_event (events (backtest_rows strategy rows batch backtest now)) /\
    clock (backtest_rows strategy rows batch backtest now) = now.
Proof.
  induction rows as [|[datetime bar] rest IH]; intros batch backtest now.
  - simpl. split; [constructor | reflexivity].
  - rewrite backtest_rows_step. cbv zeta.
    destruct (bt_call strategy _ _) as [backtest''| |]; cbn [outcome clock events];
      try (split; [repeat constructor | reflexivity]).
    destruct (IH (processing.append batch bar) backtest'' now) as [Hev Hclock].
    split; [|exact Hclock]. apply Forall_app. split; [repeat constructor | exact Hev].
Qed.

(** With a strategy that returns, the replay of [bars] into a buffer with
    room for them returns too, and the strategy sees one more bar each
    time. *)
Lemma backtest_rows_windows (strategy : BacktestStrategy) (bars : list Bar) :
  (forall backtest data_batch, exists backtest',
      bt_call strategy backtest data_batch = Ok backtest') ->
  forall batch backtest now,
    (processing.len batch + List.length bars <= processing.capacity batch)%nat ->
    (exists backtest', outcome (backtest_rows strategy (iterrows bars) batch backtest now)
                       = Ok backtest') /\
    map snd (bt_calls (events (backtest_rows strategy (iterrows bars) batch backtest now)))
    = windows_after (processing.items batch) bars.
Proof.
  intros Htotal. induction bars as [|bar rest IH]; intros batch backtest now Hroom.
  - simpl. split; [now exists backtest | reflexivity].
  - change (iterrows (bar :: rest)) with ((timestamp bar, bar) :: iterrows rest).
    rewrite backtest_rows_step. cbv zeta.
    destruct (Htotal (bt.update_bar backtest (timestamp bar) bar)
                (processing.snapshot (processing.append batch bar))) as [backtest'' Hcall].
    rewrite Hcall. cbn [outcome clock events].
    simpl in Hroom.
    assert (Hitems : processing.items (processing.append batch bar)
                     = processing.items batch ++ [bar])
      by (apply buffer_facts.append_room; lia).
    destruct (IH (processing.append batch bar) backtest'' now) as [Hout Hcalls].
    { rewrite buffer_facts.capacity_append. unfold processing.len in *.
      rewrite Hitems, length_app. simpl. lia. }
    split; [exact Hout|].
    rewrite bt_calls_app, map_app, Hcalls, Hitems. unfold processing.snapshot.
    rewrite Hitems. reflexivity.
Qed.

(** The body of the loop over the symbols, written out. *)
Lemma backtest_symbol_step (strategy : BacktestStrategy) (args : BacktestArgs)
    (source : HistoricalSource) (symbol : string) (now : nat) :
  backtest_symbol strategy args source symbol now =
  let fetched := (now, EvDataCall symbol (bt_start args) (bt_end args)
                         (bt_data_interval args)) in
  match source symbol (bt_start args) (bt_end args) (bt_data_interval args) with
  | Ok data_batch =>
      match processing.new (Z.of_nat (List.length data_batch)) with
      | Ok batch =>
          let r := backtest_rows strategy (iterrows data_batch) batch
                     (bt.new 100000 1 true) now in
          match outcome r with
          | Ok backtest =>
              Run (Ok tt) (clock r)
                  ([fetched; (now, EvNewBacktest 100000 1 true)] ++ events r
                   ++ [(clock r, EvPrintTradeLog backtest)])
          | Raise e =>
              Run (Raise e) (clock r)
                  ([fetched; (now, EvNewBacktest 100000 1 true)] ++ events r)
          | Unfinished =>
              Run Unfinished (clock r)
                  ([fetched; (now, EvNewBacktest 100000 1 true)] ++ events r)
          end
      | Raise e => Run (Raise e) now [fetched]
      | Unfinished => Run Unfinished now [fetched]
      end
  | Raise e => Run (Raise e) now [fetched]
  | Unfinished => Run Unfinished now [fetched]
  end.
Proof.
  unfold backtest_symbol, bind, emit, call, lift. cbn [outcome clock events app].
  destruct (source symbol _ _ _) as [data_batch| |]; cbn [outcome clock events app];
    try reflexivity.
  destruct (processing.new _) as [batch| |]; cbn [outcome clock events app]; try reflexivity.
  destruct (outcome (backtest_rows strategy (iterrows data_batch) batch _ now));
    reflexivity.
Qed.

(** The two [except] clauses of [run_backtest], by class of exception. *)
Lemma backtest_handler_run (strategy : BacktestStrategy) (e : exn) (now : nat) :
  backtest_handler strategy e now =
  if is_interrupt e
  then Run (Ok tt) now
         [(now, EvPrint newline);
          (now, EvLog CRITICAL "User's keyboard prompt stopped {}" [FStr (bt_name strategy)])]
  else if is_exception e
  then Run (Raise e) now
         [(now, EvLog CRITICAL "Exiting {}...‼️" [FStr (bt_name strategy)]);
          (now, EvLog ERROR
                  "Oops! Something went wrong while your algorithm was being backtested. ⚠️"
                  [])]
  else Run (Raise e) now [].
Proof. destruct e; reflexivity. Qed.

(** Whatever the arguments, every context of a backtest is constructed
    from the constants of line 49. *)
Lemma run_backtest_contexts (w : World) (strategy : BacktestStrategy) (args : BacktestArgs) :
  satisfies (run_backtest w strategy args) context_event (fun _ => True).
Proof.
  assert (Hrows : forall rows batch backtest,
             satisfies (backtest_rows strategy rows batch backtest) context_event
                       (fun _ => True)).
  { intros rows batch backtest now. split; [|trivial].
    destruct (backtest_rows_replay strategy rows batch backtest now) as [Hev _].
    eapply Forall_impl; [|exact Hev].
    intros [t e]. unfold replay_event, context_event. destruct e; simpl; tauto. }
  assert (Hsymbol : forall source symbol,
             satisfies (backtest_symbol strategy args source symbol) context_event
                       (fun _ => True)).
  { intros source symbol. unfold backtest_symbol.
    apply satisfies_bind with (Q := fun _ => True);
      [apply satisfies_call; [intros; exact I | trivial]|].
    intros data_batch _. apply satisfies_bind with (Q := fun _ => True);
      [now apply satisfies_lift|].
    intros batch _. apply satisfies_bind with (Q := fun _ => True).
    { apply satisfies_emit; [|trivial]. intros now. unfold context_event. simpl. auto. }
    intros _ _. apply satisfies_bind with (Q := fun _ => True); [apply Hrows|].
    intros backtest _. apply satisfies_emit; [intros; exact I | trivial]. }
  assert (Hsymbols : forall source symbols,
             satisfies (backtest_symbols strategy args source symbols) context_event
                       (fun _ => True)).
  { intros source symbols. induction symbols as [|symbol rest IH]; simpl.
    - now apply satisfies_ret.
    - apply satisfies_bind with (Q := fun _ => True); [apply Hsymbol | intros _ _; exact IH]. }
  unfold run_backtest. apply satisfies_try.
  - unfold backtest_body.
    apply satisfies_bind with (Q := fun _ => True);
      [apply satisfies_emit; [intros; exact I | trivial]|].
    intros _ _. apply satisfies_bind with (Q := fun _ => True).
    + unfold lookup. destruct (Data_Types_historical w (bt_data args));
        [now apply satisfies_ret | apply satisfies_raise].
    + intros source _. apply Hsymbols.
  - intros e now. rewrite backtest_handler_run.
    destruct (is_interrupt e), (is_exception e); cbn [outcome events];
      (split; [repeat constructor | trivial]).
Qed.

Lemma context_events_constant (tr : trace) :
  Forall context_event tr ->
  Forall (fun c => c = (100000%Q, 1%Q, true)) (new_backtests tr).
Proof.
  induction 1 as [|[t e] tr Hc _ IH]; [constructor|].
  unfold new_backtests in *. simpl. destruct e; simpl; try exact IH.
  constructor; [|exact IH]. unfold context_event in Hc. simpl in Hc.
  destruct Hc as (-> & -> & ->). reflexivity.
Qed.

End backtest_facts.

(** * The claims about run_backtest *)

Section run_backtest_claims.
Import monad_facts backtest_facts.

Variable w : World.
Variable strategy : BacktestStrategy.
Variable args : BacktestArgs.
Variable now : nat.

(** A backtest of one symbol whose strategy returns: outcome and strategy
    calls. *)
Lemma backtest_one_symbol (source : HistoricalSource) (symbol : string) (bars : DataFrame) :
  bt_symbol_bucket args = [symbol] ->
  Data_Types_historical w (bt_data args) = Some source ->
  source symbol (bt_start args) (bt_end args) (bt_data_interval args) = Ok bars ->
  (forall backtest data_batch, exists backtest',
      bt_call strategy backtest data_batch = Ok backtest') ->
  map snd (bt_calls (events (run_backtest w strategy args now))) = windows_after [] bars /\
  (bars <> [] -> outcome (run_backtest w strategy args now) = Ok tt).
Proof.
  intros Hbucket Hsource Hbars Htotal.
  unfold run_backtest, try_except, backtest_body, lookup.
  rewrite Hbucket, Hsource. cbn [backtest_symbols].
  unfold bind, emit, ret. cbn [outcome clock events app].
  rewrite backtest_symbol_step, Hbars. cbv zeta.
  destruct bars as [|bar rest].
  - cbn. split; [reflexivity | congruence].
  - rewrite buffer_facts.new_total by (simpl List.length; lia).
    destruct (backtest_rows_windows strategy (bar :: rest) Htotal
                (processing.mkBuffer (Z.to_nat (Z.of_nat (List.length (bar :: rest)))) [])
                (bt.new 100000 1 true) now) as [[backtest' Hout] Hcalls].
    { unfold processing.len. cbn [processing.items processing.capacity List.length].
      rewrite Nat2Z.id. simpl. lia. }
    rewrite Hout. cbn [outcome clock events app].
    split; [|reflexivity].
    change (?x :: ?y :: ?z :: ?l) with ([x; y; z] ++ l).
    rewrite !bt_calls_app, !map_app, Hcalls.
    cbn [bt_calls flat_map snd map app processing.items]. now rewrite !app_nil_r.
Qed.

(** C1.  A backtest over a historical series of N bars for one symbol, with
    a strategy that returns, invokes the strategy exactly N times; the k-th
    call receives the window of the first k bars, so the calls follow the
    bars in source order, which is strictly increasing in the timestamp for
    a time-ordered series; and the window of the last call contains all N
    bars.  With N >= 1 the run returns normally. *)
Theorem backtest_invokes_once_per_bar
    (source : HistoricalSource) (symbol : string) (bars : DataFrame) :
  bt_symbol_bucket args = [symbol] ->
  Data_Types_historical w (bt_data args) = Some source ->
  source symbol (bt_start args) (bt_end args) (bt_data_interval args) = Ok bars ->
  (forall backtest data_batch, exists backtest',
      bt_call strategy backtest data_batch = Ok backtest') ->
  StronglySorted Z.lt (map timestamp bars) ->
  let windows := map snd (bt_calls (events (run_backtest w strategy args now))) in
  List.length (bt_calls (events (run_backtest w strategy args now))) = List.length bars /\
  windows = windows_after [] bars /\
  map newest windows = bars /\
  StronglySorted Z.lt (map timestamp (map newest windows)) /\
  last windows [] = bars /\
  (bars <> [] -> outcome (run_backtest w strategy args now) = Ok tt).
Proof.
  intros Hbucket Hsource Hbars Htotal Hsorted windows.
  destruct (backtest_one_symbol source symbol bars Hbucket Hsource Hbars Htotal)
    as [Hwindows Hout].
  fold windows in Hwindows.
  assert (Hnewest : map newest windows = bars)
    by (rewrite Hwindows; apply newest_windows_after).
  split; [|split; [|split; [|split; [|split]]]].
  - rewrite <- (length_map snd). fold windows. rewrite Hwindows. apply length_windows_after.
  - exact Hwindows.
  - exact Hnewest.
  - now rewrite Hnewest.
  - rewrite Hwindows. apply (last_windows_after bars []).
  - exact Hout.
Qed.

(** With an empty bucket the backtest calls no data source, invokes no
    strategy, and ends as the lookup of the data identifier does. *)
Lemma backtest_empty_bucket :
  bt_symbol_bucket args = [] ->
  outcome (run_backtest w strategy args now)
  = match Data_Types_historical w (bt_data args) with
    | Some _ => Ok tt
    | None => Raise (KeyError (bt_data args))
    end /\
  data_calls (events (run_backtest w strategy args now)) = [] /\
  bt_calls (events (run_backtest w strategy args now)) = [].
Proof.
  intros Hbucket. unfold run_backtest, try_except, backtest_body, lookup.
  rewrite Hbucket. destruct (Data_Types_historical w (bt_data args)); cbn; auto.
Qed.

End run_backtest_claims.

(** * The claims about the buffer, the exemptions and the failure boundary *)

(** C2.  A buffer constructed with capacity C >= 1 exists, and after any
    sequence of appends its length is at most C, it holds the newest
    elements appended, in insertion order, and an append to a buffer at
    capacity drops exactly the oldest element and stores the new one last.
    In a live run, no window built from the buffer of capacity [batch_size]
    holds more than [batch_size] bars. *)
Theorem rolling_buffer_bounded_fifo :
  (forall (A : Type) (C : Z), (1 <= C)%Z ->
     exists b : processing.Buffer A,
       processing.new C = Ok b /\
       forall xs : list A,
         (Z.of_nat (processing.len (processing.appends b xs)) <= C)%Z /\
         processing.items (processing.appends b xs) = lastn (Z.to_nat C) xs /\
         forall x : A,
           processing.len (processing.appends b xs) = Z.to_nat C ->
           processing.items (processing.append (processing.appends b xs) x)
           = tl (processing.items (processing.appends b xs)) ++ [x]) /\
  (forall w strategy args fuel now t data_batch,
     In (t, data_batch) (live_calls (events (run_live w strategy args fuel now))) ->
     (Z.of_nat (List.length data_batch) <= batch_size args)%Z).
Proof.
  split.
  - intros A C HC. exists (processing.mkBuffer (Z.to_nat C) []).
    split; [now apply buffer_facts.new_total|].
    intros xs.
    assert (Hcap : (1 <= Z.to_nat C)%nat) by lia.
    split; [|split].
    + assert (Hlen : (processing.len (processing.appends
                                        (processing.mkBuffer (Z.to_nat C) []) xs)
                      <= Z.to_nat C)%nat)
        by (apply (buffer_facts.len_appends xs (processing.mkBuffer (Z.to_nat C) []));
            unfold processing.len; simpl; lia).
      lia.
    + now rewrite buffer_facts.items_appends by (unfold processing.len; simpl; lia).
    + intros x Hfull. apply buffer_facts.append_full.
      now rewrite buffer_facts.capacity_appends.
  - intros w strategy args fuel now t data_batch.
    apply live_window_bounded.
Qed.

(** C3, as amended.  In a live run the strategy is invoked only if the
    market state read on entering the loop was not a member of
    [exempted_states]; and the run does not depend on the exempted weekday
    labels and calendar dates, which are not consulted. *)
Theorem live_exemptions_checked_on_entry :
  forall w strategy args fuel now,
    (forall t data_batch,
        In (t, data_batch) (live_calls (events (run_live w strategy args fuel now))) ->
        exists state, intraday_state w now = Ok state /\
                      str_in state (exempted_states args) = false) /\
    (forall days dates,
        run_live w strategy (with_calendar_exemptions args days dates) fuel now
        = run_live w strategy args fuel now).
Proof.
  intros w strategy args fuel now. split.
  - intros t data_batch. apply invoked_after_open_reading.
  - intros days dates. reflexivity.
Qed.

(** C5, as amended.  A run whose symbol bucket has no entries calls no data
    source and never invokes the strategy; a backtest then returns normally
    once its data identifier is resolved, and fails with [KeyError]
    otherwise. *)
Theorem empty_bucket_makes_no_call :
  (forall w strategy args now,
     bt_symbol_bucket args = [] ->
     outcome (run_backtest w strategy args now)
     = match Data_Types_historical w (bt_data args) with
       | Some _ => Ok tt
       | None => Raise (KeyError (bt_data args))
       end /\
     data_calls (events (run_backtest w strategy args now)) = [] /\
     bt_calls (events (run_backtest w strategy args now)) = []) /\
  (forall w strategy args fuel now,
     symbol_bucket args = PyList [] ->
     data_calls (events (run_live w strategy args fuel now)) = [] /\
     live_calls (events (run_live w strategy args fuel now)) = []).
Proof.
  split.
  - intros w strategy args now. apply backtest_empty_bucket.
  - intros w strategy args fuel now. apply live_empty_bucket.
Qed.

(** C10.  In both [run_backtest] and [run_live], when the [try] block is
    stopped by [KeyboardInterrupt] or [SystemExit] the run logs, at critical
    level, a message naming the strategy and returns normally; when the
    block raises any other exception, an instance of [Exception], the run
    logs at critical level and raises that same exception to the caller;
    and whatever the block raises that is not an interrupt reaches the
    caller unchanged: nothing else is swallowed. *)
Theorem failure_boundary :
  (forall w strategy args now e,
     outcome (backtest_body w strategy args now) = Raise e ->
     let body := backtest_body w strategy args now in
     let r := run_backtest w strategy args now in
     ((e = KeyboardInterrupt \/ e = SystemExit) ->
      outcome r = Ok tt /\
      events r = events body ++
        [(clock body, EvPrint newline);
         (clock body, EvLog CRITICAL "User's keyboard prompt stopped {}"
                        [FStr (bt_name strategy)])]) /\
     (forall cls msg, e = PyException cls msg ->
      outcome r = Raise e /\
      events r = events body ++
        [(clock body, EvLog CRITICAL "Exiting {}...‼️" [FStr (bt_name strategy)]);
         (clock body,
          EvLog ERROR
            "Oops! Something went wrong while your algorithm was being backtested. ⚠️" [])]) /\
     (e <> KeyboardInterrupt -> e <> SystemExit -> outcome r = Raise e)) /\
  (forall w strategy args fuel now e,
     outcome (live_body w strategy args fuel now) = Raise e ->
     let body := live_body w strategy args fuel now in
     let r := run_live w strategy args fuel now in
     ((e = KeyboardInterrupt \/ e = SystemExit) ->
      outcome r = Ok tt /\
      events r = events body ++
        [(clock body, EvPrint newline);
         (clock body, EvLog CRITICAL "User's keyboard prompt stopped {}"
                        [FStr (live_name strategy)])]) /\
     (forall cls msg, e = PyException cls msg ->
      outcome r = Raise e /\
      events r = events body ++
        [(clock body, EvLog CRITICAL "Exiting {}...‼️" [FStr (live_name strategy)]);
         (clock body, EvLog ERROR "Oops! Something went wrong ⚠️" [])]) /\
     (e <> KeyboardInterrupt -> e <> SystemExit -> outcome r = Raise e)).
Proof.
  split.
  - intros w strategy args now e Hbody body r. subst body r.
    unfold run_backtest, try_except. rewrite Hbody.
    split; [|split].
    + intros [-> | ->]; split; reflexivity.
    + intros cls msg ->. split; reflexivity.
    + intros H1 H2. destruct e; try reflexivity; contradiction.
  - intros w strategy args fuel now e Hbody body r. subst body r.
    unfold run_live, try_except. rewrite Hbody.
    split; [|split].
    + intros [-> | ->]; split; reflexivity.
    + intros cls msg ->. split; reflexivity.
    + intros H1 H2. destruct e; try reflexivity; contradiction.
Qed.

(** An exception that is neither an interrupt nor an instance of
    [Exception] is matched by no clause: it reaches the caller and nothing
    is logged. *)
Lemma unmatched_exception_propagates :
  (forall w strategy args now cls msg,
     outcome (backtest_body w strategy args now) = Raise (PyBaseException cls msg) ->
     outcome (run_backtest w strategy args now) = Raise (PyBaseException cls msg) /\
     events (run_backtest w strategy args now) = events (backtest_body w strategy args now)) /\
  (forall w strategy args fuel now cls msg,
     outcome (live_body w strategy args fuel now) = Raise (PyBaseException cls msg) ->
     outcome (run_live w strategy args fuel now) = Raise (PyBaseException cls msg) /\
     events (run_live w strategy args fuel now) = events (live_body w strategy args fuel now)).
Proof.
  split.
  - intros w strategy args now cls msg Hbody.
    unfold run_backtest, try_except. rewrite Hbody. cbn. now rewrite app_nil_r.
  - intros w strategy args fuel now cls msg Hbody.
    unfold run_live, try_except. rewrite Hbody. cbn. now rewrite app_nil_r.
Qed.

(** C6.  The lower-cased lists of lines 122-123 are discarded: with the
    market state "open" and the caller's entry "OPEN", whose lower-cased
    form is "open", the state is found outside the list and the strategy is
    invoked, whereas with the entry "open" the run returns at once.
    Matching is therefore case-sensitive in the caller's entries. *)
Theorem exempted_states_compared_as_written :
  let args := sample.live_args ["AAPL"] "US_STOCKS_live_feed" ["OPEN"] in
  intraday_state sample.open_world 0 = Ok "open" /\
  map lower (exempted_states args) = ["open"] /\
  List.length (live_calls (events (run_live sample.open_world sample.watch args 3 0))) = 2%nat /\
  run_live sample.open_world sample.watch (with_exempted_states args ["open"]) 3 0
  = Run (Ok tt) 0 [entering sample.watch 0; (0%nat, EvIntradayStatus)] /\
  ~ states_case_insensitive sample.open_world sample.watch args 3 0.
Proof.
  cbv zeta. split; [reflexivity|]. split; [reflexivity|]. split; [reflexivity|].
  split; [reflexivity|].
  unfold states_case_insensitive. intros H.
  apply (f_equal outcome) in H. vm_compute in H. discriminate H.
Qed.

(** C7.  [run_backtest] constructs every context with capital 100000,
    commission 1 and slippage enabled, whatever the caller supplies: so it
    does for a caller who asks for capital 50000, commission 0 and no
    slippage. *)
Theorem backtest_context_ignores_configuration :
  let args := sample.backtest_args ["AAA"] in
  (bt_initial_capital args, bt_commission args, bt_slippage args)
  = (50000%Q, 0%Q, false) /\
  new_backtests (events (run_backtest sample.world sample.hold args 0))
  = [(100000%Q, 1%Q, true)] /\
  forall w strategy args now,
    Forall (fun c => c = (100000%Q, 1%Q, true))
           (new_backtests (events (run_backtest w strategy args now))).
Proof.
  cbv zeta. split; [reflexivity|]. split; [reflexivity|].
  intros w strategy args now. apply backtest_facts.context_events_constant.
  now destruct (backtest_facts.run_backtest_contexts w strategy args now).
Qed.

(** The specification's scenario: two symbols of two bars each give four
    strategy calls, in bucket order and, within a symbol, in bar order. *)
Example two_symbols_two_bars :
  map snd (bt_calls (events (run_backtest sample.world sample.hold
                               (sample.backtest_args ["AAA"; "BBB"]) 0)))
  = [[sample.bar 1 10]; [sample.bar 1 10; sample.bar 2 11];
     [sample.bar 1 20]; [sample.bar 1 20; sample.bar 2 21]].
Proof. reflexivity. Qed.

(** * Counterexamples to the claims as first stated *)

(** C3 as stated fails.  With "closed" exempted, a run that starts while the
    market is open still invokes the strategy at clock 1, when the market is
    closed; and with Sunday and the first of March exempted, a run started
    on that day invokes the strategy at clock 0. *)
Lemma invoked_during_exemption :
  ~ never_invoked_when_exempted sample.world
      (sample.live_args ["AAPL"] "US_STOCKS_live_feed" ["closed"])
      (events (run_live sample.world sample.watch
                 (sample.live_args ["AAPL"] "US_STOCKS_live_feed" ["closed"]) 3 0)) /\
  ~ never_invoked_when_exempted sample.world
      (mkLiveArgs (PyList ["AAPL"]) "US_STOCKS_live_feed" [""] ["sunday"] ["2020-03-01"]
         2 250 false)
      (events (run_live sample.world sample.watch
                 (mkLiveArgs (PyList ["AAPL"]) "US_STOCKS_live_feed" [""] ["sunday"]
                    ["2020-03-01"] 2 250 false) 3 0)).
Proof.
  split; intros H.
  - destruct (H 1%nat [sample.bar 0 1; sample.bar 1 1]) as [Hstate _].
    + vm_compute. right. left. reflexivity.
    + specialize (Hstate "closed" eq_refl). vm_compute in Hstate. discriminate Hstate.
  - destruct (H 0%nat [sample.bar 0 1]) as (_ & Hday & _).
    + vm_compute. left. reflexivity.
    + vm_compute in Hday. discriminate Hday.
Qed.

(** C5 as stated fails.  With an empty bucket a backtest returns normally
    and a live run keeps spinning: neither fails with EmptySymbolBucket. *)
Lemma empty_bucket_not_rejected :
  outcome (run_backtest sample.world sample.hold (sample.backtest_args []) 0) = Ok tt /\
  ~ fails_with_EmptySymbolBucket
      (run_backtest sample.world sample.hold (sample.backtest_args []) 0) /\
  outcome (run_live sample.world sample.watch
             (sample.live_args [] "US_STOCKS_live_feed" ["closed"]) 5 0) = Unfinished /\
  ~ fails_with_EmptySymbolBucket
      (run_live sample.world sample.watch
         (sample.live_args [] "US_STOCKS_live_feed" ["closed"]) 5 0).
Proof.
  split; [reflexivity|]. split; [intros [msg H]; vm_compute in H; discriminate H|].
  split; [reflexivity|]. intros [msg H]. vm_compute in H. discriminate H.
Qed.

(** * The theorems at work on the sample runs *)

Lemma backtest_invokes_once_per_bar_witness :
  StronglySorted Z.lt (map timestamp sample.AAA) /\
  List.length (bt_calls (events (run_backtest sample.world sample.hold
                                   (sample.backtest_args ["AAA"]) 0))) = 2 /\
  last (map snd (bt_calls (events (run_backtest sample.world sample.hold
                                     (sample.backtest_args ["AAA"]) 0)))) []
  = sample.AAA /\
  outcome (run_backtest sample.world sample.hold (sample.backtest_args ["AAA"]) 0) = Ok tt.
Proof.
  assert (Hsorted : StronglySorted Z.lt (map timestamp sample.AAA)).
  { simpl. repeat constructor. }
  destruct (backtest_invokes_once_per_bar sample.world sample.hold
              (sample.backtest_args ["AAA"]) 0 sample.history "AAA" sample.AAA
              eq_refl eq_refl eq_refl
              (fun backtest _ => ex_intro _ backtest eq_refl) Hsorted)
    as (Hlen & _ & _ & _ & Hlast & Hout).
  split; [exact Hsorted|]. split; [exact Hlen|]. split; [exact Hlast|].
  apply Hout. discriminate.
Defined.

Lemma rolling_buffer_bounded_fifo_witness :
  (exists b : processing.Buffer Z,
      processing.new 3 = Ok b /\
      processing.items (processing.appends b [1; 2; 3; 4]%Z) = [2; 3; 4]%Z) /\
  (Z.of_nat (List.length [sample.bar 0 1; sample.bar 1 1]) <= 2)%Z.
Proof.
  destruct rolling_buffer_bounded_fifo as [Hbuffer Hlive]. split.
  - destruct (Hbuffer Z 3%Z) as (b & Hnew & Hall); [lia|].
    exists b. split; [exact Hnew|].
    destruct (Hall [1; 2; 3; 4]%Z) as (_ & Hitems & _). rewrite Hitems. reflexivity.
  - apply (Hlive sample.world sample.watch
             (sample.live_args ["AAPL"] "US_STOCKS_live_feed" ["closed"]) 3 0 1).
    vm_compute. right. left. reflexivity.
Defined.

Lemma live_exemptions_checked_on_entry_witness :
  exists state, intraday_state sample.world 0 = Ok state /\ str_in state ["closed"] = false.
Proof.
  destruct (live_exemptions_checked_on_entry sample.world sample.watch
              (sample.live_args ["AAPL"] "US_STOCKS_live_feed" ["closed"]) 3 0)
    as [Hentry _].
  apply (Hentry 1 [sample.bar 0 1; sample.bar 1 1]).
  vm_compute. right. left. reflexivity.
Defined.

Lemma live_loop_never_exits_normally_witness :
  (status_reads (events (run_live sample.world sample.watch
                           (sample.live_args ["AAPL"] "US_STOCKS_live_feed" ["open"]) 3 0))
   <= 1) /\
  run_live (with_market sample.world (fun _ => Ok "open")) sample.watch
    (sample.live_args ["AAPL"] "US_STOCKS_live_feed" ["closed"]) 3 0
  = run_live sample.world sample.watch
      (sample.live_args ["AAPL"] "US_STOCKS_live_feed" ["closed"]) 3 0 /\
  outcome (live_while sample.watch ["AAPL"] sample.feed 2 250 false 3
             (processing.mkBuffer 2 []) 0) <> Ok (processing.mkBuffer 2 []) /\
  ((exists state, intraday_state sample.world 0 = Ok state /\
                  str_in state ["open"] = true /\
                  live_calls (events (run_live sample.world sample.watch
                                        (sample.live_args ["AAPL"] "US_STOCKS_live_feed"
                                           ["open"]) 3 0)) = []) \/
   (exists e, is_interrupt e = true /\
              outcome (live_body sample.world sample.watch
                         (sample.live_args ["AAPL"] "US_STOCKS_live_feed" ["open"]) 3 0)
              = Raise e)).
Proof.
  destruct (live_loop_never_exits_normally sample.world sample.watch
              (sample.live_args ["AAPL"] "US_STOCKS_live_feed" ["open"]) 3 0)
    as (Hreads & _ & _ & Hreturn).
  destruct (live_loop_never_exits_normally sample.world sample.watch
              (sample.live_args ["AAPL"] "US_STOCKS_live_feed" ["closed"]) 3 0)
    as (_ & Hmarket & Hinner & _).
  split; [exact Hreads|]. split; [|split].
  - apply Hmarket. reflexivity.
  - apply (Hinner ["AAPL"] sample.feed 250%Q (processing.mkBuffer 2 []) 3 0). reflexivity.
  - apply Hreturn. reflexivity.
Defined.

Lemma empty_bucket_makes_no_call_witness :
  outcome (run_backtest sample.world sample.hold (sample.backtest_args []) 0) = Ok tt /\
  data_calls (events (run_live sample.world sample.watch
                        (sample.live_args [] "US_STOCKS_live_feed" ["closed"]) 5 0)) = [] /\
  live_calls (events (run_live sample.world sample.watch
                        (sample.live_args [] "US_STOCKS_live_feed" ["closed"]) 5 0)) = [].
Proof.
  destruct empty_bucket_makes_no_call as [Hbacktest Hlive]. split.
  - destruct (Hbacktest sample.world sample.hold (sample.backtest_args []) 0 eq_refl)
      as (Hout & _). exact Hout.
  - apply Hlive. reflexivity.
Defined.

Lemma unrecognised_feed_rejected_witness :
  ~ recognised_feed "unknown_feed" /\
  outcome (run_live sample.world sample.watch
             (sample.live_args ["AAPL"] "unknown_feed" ["closed"]) 3 0)
  = Raise InvalidDataFeedType /\
  live_calls (events (run_live sample.world sample.watch
                        (sample.live_args ["AAPL"] "unknown_feed" ["closed"]) 3 0)) = [].
Proof.
  assert (Hfeed : ~ recognised_feed "unknown_feed").
  { intros [H | [H | H]]; discriminate H. }
  destruct (unrecognised_feed_rejected sample.world sample.watch
              (sample.live_args ["AAPL"] "unknown_feed" ["closed"]) 3 0 ["AAPL"]
              eq_refl Hfeed) as (Hrun & Hcalls & _).
  split; [exact Hfeed|]. split; [|exact Hcalls]. rewrite Hrun. reflexivity.
Defined.

Lemma pacing_delay_selection_witness :
  (exists rate, exchange_attribute sample.world "rateLimit" = Ok rate /\
                (50 / 1000)%Q = (rate / 1000)%Q) /\
  (250 / 1000)%Q = (data_feed_delay (sample.live_args ["AAPL"] "US_STOCKS_live_feed"
                                       ["closed"]) / 1000)%Q.
Proof.
  split.
  - apply (pacing_delay_selection sample.world sample.watch
             (sample.live_args ["BTC/USD"] "CRYPTO_live_feed" ["closed"]) 3 0 (50 / 1000)%Q).
    + vm_compute. left. reflexivity.
    + left. reflexivity.
  - apply (pacing_delay_selection sample.world sample.watch
             (sample.live_args ["AAPL"] "US_STOCKS_live_feed" ["closed"]) 3 0 (250 / 1000)%Q).
    + vm_compute. left. reflexivity.
    + reflexivity.
Defined.

Lemma failure_boundary_witness :
  outcome (run_backtest sample.world sample.stopped (sample.backtest_args ["AAA"]) 0)
  = Ok tt /\
  outcome (run_backtest sample.world sample.broken (sample.backtest_args ["AAA"]) 0)
  = Raise (PyException "ZeroDivisionError" "division by zero") /\
  outcome (run_live sample.world sample.stopped_live
             (sample.live_args ["AAPL"] "US_STOCKS_live_feed" ["closed"]) 3 0)
  = Ok tt /\
  outcome (run_live sample.world sample.broken_live
             (sample.live_args ["AAPL"] "US_STOCKS_live_feed" ["closed"]) 3 0)
  = Raise (PyException "ZeroDivisionError" "division by zero").
Proof.
  destruct failure_boundary as [Hbacktest Hlive].
  split; [|split; [|split]].
  - destruct (Hbacktest sample.world sample.stopped (sample.backtest_args ["AAA"]) 0
                KeyboardInterrupt eq_refl) as [Hint _].
    apply Hint. left. reflexivity.
  - destruct (Hbacktest sample.world sample.broken (sample.backtest_args ["AAA"]) 0
                (PyException "ZeroDivisionError" "division by zero") eq_refl)
      as (_ & Hexn & _).
    apply (Hexn "ZeroDivisionError" "division by zero"). reflexivity.
  - destruct (Hlive sample.world sample.stopped_live
                (sample.live_args ["AAPL"] "US_STOCKS_live_feed" ["closed"]) 3 0
                KeyboardInterrupt eq_refl) as [Hint _].
    apply Hint. left. reflexivity.
  - destruct (Hlive sample.world sample.broken_live
                (sample.live_args ["AAPL"] "US_STOCKS_live_feed" ["closed"]) 3 0
                (PyException "ZeroDivisionError" "division by zero") eq_refl)
      as (_ & Hexn & _).
    apply (Hexn "ZeroDivisionError" "division by zero"). reflexivity.
Defined.

(** * Further properties of run_backtest *)

Module backtest_more.
Import monad_facts backtest_facts.

Section timeless_rules.
Context {A B : Type}.

Lemma timeless_ret (a : A) : timeless (ret a).
Proof. intros now. reflexivity. Qed.

Lemma timeless_raise (e : exn) : timeless (raise (A := A) e).
Proof. intros now. reflexivity. Qed.

Lemma timeless_lift (r : result A) : timeless (lift r).
Proof. intros now. reflexivity. Qed.

Lemma timeless_call (e : event) (answer : nat -> result A) : timeless (call e answer).
Proof. intros now. reflexivity. Qed.

Lemma timeless_bind (m : M A) (f : A -> M B) :
  timeless m -> (forall a, timeless (f a)) -> timeless (bind m f).
Proof.
  intros Hm Hf now. unfold bind. specialize (Hm now).
  destruct (outcome (m now)) as [a| |]; cbn [clock]; [|exact Hm|exact Hm].
  rewrite (Hf a). exact Hm.
Qed.

Lemma timeless_try (body : M A) (handler : exn -> M A) :
  timeless body -> (forall e, timeless (handler e)) -> timeless (try_except body handler).
Proof.
  intros Hb Hh now. unfold try_except. specialize (Hb now).
  destruct (outcome (body now)) as [a|e|]; cbn [clock]; [exact Hb| |exact Hb].
  rewrite (Hh e). exact Hb.
Qed.

End timeless_rules.

Lemma timeless_emit (e : event) : timeless (emit e).
Proof. intros now. reflexivity. Qed.

Section one_run.
Variable w : World.
Variable strategy : BacktestStrategy.
Variable args : BacktestArgs.

Lemma run_backtest_timeless : timeless (run_backtest w strategy args).
Proof.
  assert (Hrows : forall rows batch backtest,
             timeless (backtest_rows strategy rows batch backtest)).
  { intros rows batch backtest now. apply backtest_rows_replay. }
  assert (Hsymbols : forall source symbols,
             timeless (backtest_symbols strategy args source symbols)).
  { intros source symbols. induction symbols as [|symbol rest IH]; simpl.
    - apply timeless_ret.
    - apply timeless_bind; [|intros _; exact IH].
      unfold backtest_symbol.
      apply timeless_bind; [apply timeless_call|]. intros data_batch.
      apply timeless_bind; [apply timeless_lift|]. intros batch.
      apply timeless_bind; [apply timeless_emit|]. intros _.
      apply timeless_bind; [apply Hrows|]. intros backtest. apply timeless_emit. }
  unfold run_backtest. apply timeless_try.
  - unfold backtest_body. apply timeless_bind; [apply timeless_emit|]. intros _.
    apply timeless_bind; [|intros source; apply Hsymbols].
    unfold lookup. destruct (Data_Types_historical w (bt_data args));
      [apply timeless_ret | apply timeless_raise].
  - intros e now. rewrite backtest_handler_run.
    destruct (is_interrupt e), (is_exception e); reflexivity.
Qed.

(** A rule for the events of a backtest: a property of every event that is
    not one of the live collaborators holds of every event recorded. *)
Lemma run_backtest_events (P : nat * event -> Prop) :
  (forall te, ~ live_only_event te ->
              match snd te with EvStrategyBacktest _ _ => False | _ => True end ->
              P te) ->
  (forall now backtest data_batch,
      on_current_bar (backtest, data_batch) ->
      P (now, EvStrategyBacktest backtest data_batch)) ->
  satisfies (run_backtest w strategy args) P (fun _ => True).
Proof.
  intros Hother Hcall.
  assert (Hquiet : forall now e,
             match e with
             | EvIntradayStatus | EvExchangeAttribute _ | EvFeedCall _ _
             | EvStrategyLive _ | EvSleep _ | EvStrategyBacktest _ _ => False
             | _ => True
             end -> P (now, e)).
  { intros now e He. apply Hother; unfold live_only_event; destruct e; simpl; tauto. }
  assert (Hrows : forall bars batch backtest,
             satisfies (backtest_rows strategy (iterrows bars) batch backtest) P
                       (fun _ => True)).
  { induction bars as [|bar rest IH]; intros batch backtest.
    - now apply satisfies_ret.
    - change (iterrows (bar :: rest)) with ((timestamp bar, bar) :: iterrows rest).
      cbn [backtest_rows].
      apply satisfies_bind with (Q := fun _ => True);
        [apply satisfies_emit; [intros; now apply Hquiet | trivial]|].
      intros _ _. apply satisfies_bind with (Q := fun _ => True); [|intros; apply IH].
      apply satisfies_call; [|trivial]. intros now. apply Hcall.
      unfold on_current_bar, processing.snapshot, processing.append. cbn [fst snd].
      destruct (processing.len batch =? processing.capacity batch)%nat;
        cbn [processing.items bt.update_bar bt.ledger];
        do 3 eexists; split; reflexivity. }
  assert (Hsymbols : forall source symbols,
             satisfies (backtest_symbols strategy args source symbols) P (fun _ => True)).
  { intros source symbols. induction symbols as [|symbol rest IH]; simpl.
    - now apply satisfies_ret.
    - apply satisfies_bind with (Q := fun _ => True); [|intros _ _; exact IH].
      unfold backtest_symbol.
      apply satisfies_bind with (Q := fun _ => True);
        [apply satisfies_call; [intros; now apply Hquiet | trivial]|].
      intros data_batch _. apply satisfies_bind with (Q := fun _ => True);
        [now apply satisfies_lift|].
      intros batch _. apply satisfies_bind with (Q := fun _ => True);
        [apply satisfies_emit; [intros; now apply Hquiet | trivial]|].
      intros _ _. apply satisfies_bind with (Q := fun _ => True); [apply Hrows|].
      intros backtest _. apply satisfies_emit; [intros; now apply Hquiet | trivial]. }
  unfold run_backtest. apply satisfies_try.
  - unfold backtest_body.
    apply satisfies_bind with (Q := fun _ => True);
      [apply satisfies_emit; [intros; now apply Hquiet | trivial]|].
    intros _ _. apply satisfies_bind with (Q := fun _ => True);
      [|intros source _; apply Hsymbols].
    unfold lookup. destruct (Data_Types_historical w (bt_data args));
      [now apply satisfies_ret | apply satisfies_raise].
  - intros e now. rewrite backtest_handler_run.
    destruct (is_interrupt e), (is_exception e); cbn [outcome events];
      (split; [repeat constructor; now apply Hquiet | trivial]).
Qed.

End one_run.

Lemma no_live_event_projections (tr : trace) :
  Forall (fun te => ~ live_only_event te) tr ->
  sleeps tr = [] /\ status_reads tr = 0 /\ live_calls tr = [] /\ rate_limit_lookups tr = 0.
Proof.
  induction 1 as [|[t e] tr Hq _ (IH1 & IH2 & IH3 & IH4)]; [now repeat split|].
  unfold sleeps, status_reads, live_calls, rate_limit_lookups, live_only_event in *.
  destruct e; simpl in *; try (exfalso; apply Hq; exact I); auto.
Qed.


End backtest_more.

(** X1.  A backtest takes no time and stays away from the live
    collaborators: the clock it ends on is the clock it started on, and its
    trace holds no sleep, no reading of the market state, no exchange
    lookup and no live strategy call. *)
Theorem backtest_is_offline :
  forall w strategy args now,
    clock (run_backtest w strategy args now) = now /\
    sleeps (events (run_backtest w strategy args now)) = [] /\
    status_reads (events (run_backtest w strategy args now)) = 0 /\
    live_calls (events (run_backtest w strategy args now)) = [] /\
    rate_limit_lookups (events (run_backtest w strategy args now)) = 0.
Proof.
  intros w strategy args now. split; [apply backtest_more.run_backtest_timeless|].
  apply backtest_more.no_live_event_projections.
  apply (backtest_more.run_backtest_events w strategy args
           (fun te => ~ live_only_event te)).
  - intros te Hte _. exact Hte.
  - intros t backtest data_batch _ H. exact H.
Qed.


Module backtest_bucket.
Import monad_facts backtest_facts.

Lemma replay_no_data_call (tr : trace) : Forall replay_event tr -> data_calls tr = [].
Proof.
  induction 1 as [|[t e] tr Hr _ IH]; [reflexivity|].
  unfold data_calls, replay_event in *. destruct e; simpl in *; try contradiction; exact IH.
Qed.

Section one_source.
Variable strategy : BacktestStrategy.
Variable args : BacktestArgs.
Variable source : HistoricalSource.
Variable series : string -> DataFrame.

Hypothesis strategy_returns :
  forall backtest data_batch, exists backtest',
    bt_call strategy backtest data_batch = Ok backtest'.

(** One symbol whose series is served: the symbol is fetched once and its
    bars are replayed from an empty window. *)
Lemma backtest_symbol_served (symbol : string) (now : nat) :
  served args source series symbol ->
  exists tr,
    backtest_symbol strategy args source symbol now = Run (Ok tt) now tr /\
    map snd (bt_calls tr) = windows_after [] (series symbol) /\
    data_calls tr = [fetch args symbol].
Proof.
  intros [Hbars Hne]. rewrite backtest_symbol_step, Hbars. cbv zeta.
  rewrite buffer_facts.new_total
    by (destruct (series symbol); [congruence | simpl List.length; lia]).
  destruct (backtest_rows_windows strategy (series symbol) strategy_returns
              (processing.mkBuffer (Z.to_nat (Z.of_nat (List.length (series symbol)))) [])
              (bt.new 100000 1 true) now) as [[backtest' Hout] Hcalls].
  { unfold processing.len. cbn [processing.items processing.capacity List.length].
    rewrite Nat2Z.id. simpl. lia. }
  destruct (backtest_rows_replay strategy (iterrows (series symbol))
              (processing.mkBuffer (Z.to_nat (Z.of_nat (List.length (series symbol)))) [])
              (bt.new 100000 1 true) now) as [Hreplay Hclock].
  rewrite Hout, Hclock. eexists. split; [reflexivity|]. split.
  - rewrite !bt_calls_app, !map_app, Hcalls.
    cbn [bt_calls flat_map snd map app processing.items]. now rewrite app_nil_r.
  - rewrite !data_calls_app, (replay_no_data_call _ Hreplay). reflexivity.
Qed.

(** The symbols served are worked off in order before the loop goes on
    with the others. *)
Lemma backtest_symbols_served (done : list string) : forall later now,
  (forall symbol, In symbol done -> served args source series symbol) ->
  exists tr,
    map snd (bt_calls tr) = flat_map (fun symbol => windows_after [] (series symbol)) done /\
    data_calls tr = map (fetch args) done /\
    backtest_symbols strategy args source (done ++ later) now
    = Run (outcome (backtest_symbols strategy args source later now))
          (clock (backtest_symbols strategy args source later now))
          (tr ++ events (backtest_symbols strategy args source later now)).
Proof.
  induction done as [|symbol done IH]; intros later now Hserved.
  - exists []. split; [reflexivity|]. split; [reflexivity|]. simpl.
    now destruct (backtest_symbols strategy args source later now).
  - destruct (backtest_symbol_served symbol now (Hserved symbol (or_introl eq_refl)))
      as (tr1 & Hrun & Hcalls1 & Hdata1).
    destruct (IH later now (fun s Hs => Hserved s (or_intror Hs)))
      as (tr2 & Hcalls2 & Hdata2 & Hrest).
    exists (tr1 ++ tr2). split; [|split].
    + rewrite bt_calls_app, map_app, Hcalls1, Hcalls2. reflexivity.
    + rewrite data_calls_app, Hdata1, Hdata2. reflexivity.
    + cbn [app backtest_symbols]. unfold bind. rewrite Hrun. cbn [outcome clock events].
      rewrite Hrest. cbn [outcome clock events]. now rewrite app_assoc.
Qed.

End one_source.
End backtest_bucket.

(** X3.  With every symbol of the bucket served by the data source (a
    non-empty series) and a strategy that returns, a backtest returns
    normally after fetching each symbol exactly once, in bucket order and
    with the caller's start, end and interval, and after replaying each
    series in turn: the windows seen by the strategy are those of the first
    symbol, then those of the second, and so on, each symbol starting from
    an empty window. *)
Theorem backtest_follows_bucket_order :
  forall w strategy args now source (series : string -> DataFrame),
    Data_Types_historical w (bt_data args) = Some source ->
    (forall backtest data_batch, exists backtest',
        bt_call strategy backtest data_batch = Ok backtest') ->
    (forall symbol, In symbol (bt_symbol_bucket args) ->
        source symbol (bt_start args) (bt_end args) (bt_data_interval args)
        = Ok (series symbol) /\ series symbol <> []) ->
    outcome (run_backtest w strategy args now) = Ok tt /\
    map snd (bt_calls (events (run_backtest w strategy args now)))
    = flat_map (fun symbol => windows_after [] (series symbol)) (bt_symbol_bucket args) /\
    data_calls (events (run_backtest w strategy args now))
    = map (fun symbol => EvDataCall symbol (bt_start args) (bt_end args)
                           (bt_data_interval args)) (bt_symbol_bucket args).
Proof.
  intros w strategy args now source series Hsource Hreturns Hserved.
  destruct (backtest_bucket.backtest_symbols_served strategy args source series Hreturns
              (bt_symbol_bucket args) [] now Hserved) as (tr & Hcalls & Hdata & Hrun).
  rewrite app_nil_r in Hrun.
  unfold run_backtest, try_except, backtest_body, lookup. rewrite Hsource.
  unfold bind, emit, ret. cbn [outcome clock events]. rewrite Hrun.
  cbn [backtest_symbols ret outcome clock events].
  split; [reflexivity|]. rewrite app_nil_r. cbn [app].
  change (?x :: tr) with ([x] ++ tr).
  rewrite monad_facts.bt_calls_app, monad_facts.data_calls_app, map_app, Hcalls, Hdata.
  split; reflexivity.
Qed.

(** X4.  A failure of the data source on one symbol ends the whole
    backtest: the symbols before it are replayed, the failing symbol is
    fetched, no later symbol is fetched or replayed, and the run ends as the
    failure boundary decides for that exception. *)
Theorem backtest_aborts_on_first_failure :
  forall w strategy args now source (series : string -> DataFrame) done failing later e,
    bt_symbol_bucket args = done ++ failing :: later ->
    Data_Types_historical w (bt_data args) = Some source ->
    (forall backtest data_batch, exists backtest',
        bt_call strategy backtest data_batch = Ok backtest') ->
    (forall symbol, In symbol done ->
        source symbol (bt_start args) (bt_end args) (bt_data_interval args)
        = Ok (series symbol) /\ series symbol <> []) ->
    source failing (bt_start args) (bt_end args) (bt_data_interval args) = Raise e ->
    outcome (run_backtest w strategy args now)
    = (if is_interrupt e then Ok tt else Raise e) /\
    map snd (bt_calls (events (run_backtest w strategy args now)))
    = flat_map (fun symbol => windows_after [] (series symbol)) done /\
    data_calls (events (run_backtest w strategy args now))
    = map (fun symbol => EvDataCall symbol (bt_start args) (bt_end args)
                           (bt_data_interval args)) (done ++ [failing]).
Proof.
  intros w strategy args now source series done failing later e
         Hbucket Hsource Hreturns Hserved Hfail.
  destruct (backtest_bucket.backtest_symbols_served strategy args source series Hreturns
              done (failing :: later) now Hserved) as (tr & Hcalls & Hdata & Hrun).
  assert (Hfailing : backtest_symbols strategy args source (failing :: later) now
                     = Run (Raise e) now
                         [(now, EvDataCall failing (bt_start args) (bt_end args)
                                  (bt_data_interval args))]).
  { cbn [backtest_symbols]. unfold bind.
    rewrite backtest_facts.backtest_symbol_step, Hfail. reflexivity. }
  rewrite Hfailing in Hrun. cbn [outcome clock events] in Hrun.
  unfold run_backtest, try_except, backtest_body, lookup. rewrite Hsource, Hbucket.
  unfold bind, emit, ret. cbn [outcome clock events]. rewrite Hrun.
  cbn [outcome clock events]. rewrite backtest_facts.backtest_handler_run.
  cbn [app].
  destruct e; cbn [is_interrupt is_exception outcome clock events];
    (split; [reflexivity|]);
    match goal with
    | |- context [?x :: ?l ++ ?r] => change (x :: l ++ r) with ([x] ++ l ++ r)
    end;
    rewrite !monad_facts.bt_calls_app, !monad_facts.data_calls_app, !map_app, Hcalls, Hdata;
    cbn; rewrite ?app_nil_r; (split; reflexivity).
Qed.

(** X5.  A backtest whose data identifier is not in [Data_Types] fails with
    [KeyError] before anything is fetched or replayed, whatever the bucket
    and the strategy; the failure is logged and raised to the caller. *)
Theorem unknown_data_identifier :
  forall w strategy args now,
    Data_Types_historical w (bt_data args) = None ->
    run_backtest w strategy args now
    = Run (Raise (KeyError (bt_data args))) now
        [starting strategy args now;
         (now, EvLog CRITICAL "Exiting {}...‼️" [FStr (bt_name strategy)]);
         (now, EvLog ERROR
                 "Oops! Something went wrong while your algorithm was being backtested. ⚠️"
                 [])].
Proof.
  intros w strategy args now Hnone.
  unfold run_backtest, try_except, backtest_body, lookup. rewrite Hnone. reflexivity.
Qed.

(** * Further properties of run_live *)

Module live_more.
Import monad_facts live_facts.




Lemma fetched_app (feed : string -> nat -> Bar) (a b : list string) : forall now,
  fetched feed (a ++ b) now = fetched feed a now ++ fetched feed b (now + List.length a).
Proof.
  induction a as [|s a IH]; intros now; simpl.
  - now rewrite Nat.add_0_r.
  - rewrite IH. now rewrite Nat.add_succ_r.
Qed.


Lemma rate_limit_lookups_app (t1 t2 : trace) :
  rate_limit_lookups (t1 ++ t2) = rate_limit_lookups t1 + rate_limit_lookups t2.
Proof. unfold rate_limit_lookups. now rewrite filter_app, length_app. Qed.

Lemma poll_no_lookup symbols bs delay fake (tr : trace) :
  Forall (poll_event symbols bs delay fake) tr -> rate_limit_lookups tr = 0.
Proof.
  induction 1 as [|[t e] tr Hp _ IH]; [reflexivity|].
  unfold rate_limit_lookups in *. simpl.
  destruct e; simpl in Hp; try contradiction; exact IH.
Qed.

Section answering.
Variable strategy : LiveStrategy.
Variable symbols : list string.
Variable data_feed : LiveFeed.
Variable feed : string -> nat -> Bar.
Variable bs : Z.
Variable delay : Q.
Variable fake : bool.

Hypothesis feed_answers : forall symbol now, data_feed symbol fake now = Ok (feed symbol now).
Hypothesis strategy_returns : forall data_batch, live_call strategy data_batch = Ok tt.
Hypothesis room : (1 <= bs)%Z.





End answering.
End live_more.


(** X7.  Whatever its collaborators do, a live run calls the feed only for
    symbols of the caller's bucket and always with the caller's [fake_feed]
    flag. *)
Theorem feed_called_for_bucket_symbols :
  forall w strategy args fuel now e,
    In e (data_calls (events (run_live w strategy args fuel now))) ->
    exists symbols symbol,
      symbol_bucket args = PyList symbols /\ In symbol symbols /\
      e = EvFeedCall symbol (fake_feed args).
Proof.
  intros w strategy args fuel now e Hin.
  destruct (live_facts.run_live_shape w strategy args fuel now)
    as (pre & rest & post & Hev & Hpre & _ & Hpost & _ & _ & Hrest).
  rewrite Hev in Hin.
  destruct (live_facts.live_projections pre rest post Hpre Hpost) as (_ & Hd & _).
  rewrite Hd in Hin.
  assert (Hne : rest <> []) by (intros ->; contradiction).
  destruct (Hrest Hne) as (_ & symbols & delay & Hbucket & _ & _ & Hpoll).
  destruct (live_facts.poll_data_calls _ _ _ _ _ _ Hpoll Hin) as (symbol & -> & Hsym).
  now exists symbols, symbol.
Qed.

(** A handler of [run_live] looks nothing up. *)
Lemma run_live_lookups (w : World) (strategy : LiveStrategy) (args : LiveArgs)
    (fuel now : nat) :
  rate_limit_lookups (events (run_live w strategy args fuel now))
  = rate_limit_lookups (events (live_body w strategy args fuel now)).
Proof.
  unfold run_live, try_except.
  destruct (outcome (live_body w strategy args fuel now)) as [a|e|]; try reflexivity.
  rewrite live_facts.live_handler_run.
  destruct (is_interrupt e), (is_exception e); cbn [outcome clock events];
    rewrite live_more.rate_limit_lookups_app; unfold rate_limit_lookups at 2; simpl; lia.
Qed.

(** X8.  With a list bucket, the exchange's rate limit is looked up exactly
    once when the feed identifier is a crypto variant and never otherwise;
    and when that lookup raises, the run ends as the failure boundary
    decides for the exception, before the market state is read, a feed is
    called or the strategy is invoked. *)
Theorem rate_limit_looked_up_for_crypto_only :
  forall w strategy args fuel now symbols,
    symbol_bucket args = PyList symbols ->
    (crypto_feed (data_feed_type args) ->
     rate_limit_lookups (events (run_live w strategy args fuel now)) = 1 /\
     forall e, exchange_attribute w "rateLimit" = Raise e ->
       outcome (run_live w strategy args fuel now)
       = (if is_interrupt e then Ok tt else Raise e) /\
       status_reads (events (run_live w strategy args fuel now)) = 0 /\
       data_calls (events (run_live w strategy args fuel now)) = [] /\
       live_calls (events (run_live w strategy args fuel now)) = []) /\
    (~ crypto_feed (data_feed_type args) ->
     rate_limit_lookups (events (run_live w strategy args fuel now)) = 0).
Proof.
  intros w strategy args fuel now symbols Hbucket.
  assert (Houter : forall data_feed delay,
             rate_limit_lookups
               (events (live_outer strategy symbols data_feed (batch_size args) delay
                          (fake_feed args) w (exempted_states args) fuel now)) = 0).
  { intros data_feed delay. destruct fuel as [|fuel']; [reflexivity|].
    destruct (live_facts.live_outer_shape strategy symbols data_feed (batch_size args)
                delay (fake_feed args) w (exempted_states args) fuel' now)
      as (rest & Hev & Hpoll & _).
    rewrite Hev. change (?x :: rest) with ([x] ++ rest).
    rewrite live_more.rate_limit_lookups_app, (live_more.poll_no_lookup _ _ _ _ _ Hpoll).
    reflexivity. }
  split.
  - intros Hcrypto.
    assert (Hc : str_in (data_feed_type args) ["CRYPTO_live_feed"; "CRYPTO_live_feed_level2"]
                 = true) by now apply live_facts.crypto_feed_spec.
    assert (Hf : str_in (data_feed_type args)
                   ["CRYPTO_live_feed"; "US_STOCKS_live_feed"; "CRYPTO_live_feed_level2"]
                 = true).
    { apply live_facts.recognised_feed_spec. destruct Hcrypto as [H|H]; rewrite H.
      - now left.
      - now right; right. }
    split.
    + rewrite run_live_lookups, live_facts.live_body_step, Hbucket, Hf, Hc.
      destruct (exchange_attribute w "rateLimit") as [delay| |]; try reflexivity.
      destruct (Data_Types_live w (data_feed_type args)) as [data_feed|]; [|reflexivity].
      cbv zeta. cbn [events]. rewrite live_more.rate_limit_lookups_app, Houter. reflexivity.
    + intros e He. unfold run_live, try_except.
      rewrite live_facts.live_body_step, Hbucket, Hf, Hc, He. cbn [outcome clock events].
      rewrite live_facts.live_handler_run.
      destruct e; cbn [is_interrupt is_exception outcome clock events]; repeat split.
  - intros Hnot. rewrite run_live_lookups, live_facts.live_body_step, Hbucket.
    destruct (str_in (data_feed_type args)
                ["CRYPTO_live_feed"; "US_STOCKS_live_feed"; "CRYPTO_live_feed_level2"]);
      [|reflexivity].
    destruct (str_in (data_feed_type args) ["CRYPTO_live_feed"; "CRYPTO_live_feed_level2"])
      eqn:Hc; [apply live_facts.crypto_feed_spec in Hc; contradiction|].
    destruct (Data_Types_live w (data_feed_type args)) as [data_feed|]; [|reflexivity].
    cbv zeta. cbn [events]. rewrite live_more.rate_limit_lookups_app, Houter. reflexivity.
Qed.

(** X9.  A live run that finds the market state exempted at its first
    reading returns at once and normally: the state is read once, no time
    passes, no feed is called, the strategy is not invoked and nothing
    sleeps. *)
Theorem live_returns_at_once_when_exempted :
  forall w strategy args fuel now symbols data_feed delay state,
    symbol_bucket args = PyList symbols ->
    recognised_feed (data_feed_type args) ->
    pacing w args delay ->
    Data_Types_live w (data_feed_type args) = Some data_feed ->
    intraday_state w now = Ok state ->
    str_in state (exempted_states args) = true ->
    outcome (run_live w strategy args (S fuel) now) = Ok tt /\
    clock (run_live w strategy args (S fuel) now) = now /\
    status_reads (events (run_live w strategy args (S fuel) now)) = 1 /\
    data_calls (events (run_live w strategy args (S fuel) now)) = [] /\
    live_calls (events (run_live w strategy args (S fuel) now)) = [] /\
    sleeps (events (run_live w strategy args (S fuel) now)) = [].
Proof.
  intros w strategy args fuel now symbols data_feed delay state
         Hbucket Hfeed Hpace Hsource Hstate Hex.
  apply live_facts.recognised_feed_spec in Hfeed.
  unfold run_live, try_except. rewrite live_facts.live_body_step, Hbucket, Hfeed.
  unfold pacing in Hpace.
  destruct (str_in (data_feed_type args) ["CRYPTO_live_feed"; "CRYPTO_live_feed_level2"]).
  - rewrite Hpace, Hsource. cbv zeta. rewrite live_facts.live_outer_step, Hstate, Hex.
    repeat split.
  - rewrite Hsource. cbv zeta. rewrite live_facts.live_outer_step, Hstate, Hex.
    repeat split.
Qed.

(** X10.  A live run given a bucket that is not a Python list, a numpy
    array included, fails with [NameError] on the name [numpy], whatever the
    feed identifier: nothing is read, fetched or invoked, and the failure is
    logged and raised to the caller. *)
Theorem non_list_bucket_rejected :
  forall w strategy args fuel now,
    symbol_bucket args = NotAList ->
    run_live w strategy args fuel now
    = Run (Raise (NameError "numpy")) now
        [entering strategy now;
         (now, EvLog CRITICAL "Exiting {}...‼️" [FStr (live_name strategy)]);
         (now, EvLog ERROR "Oops! Something went wrong ⚠️" [])].
Proof.
  intros w strategy args fuel now Hbucket.
  unfold run_live, try_except. rewrite live_facts.live_body_step, Hbucket. reflexivity.
Qed.

(** * Properties of the validation helpers of analysis *)

Module analysis_facts.
Import analysis.

(** Sequencing, when what each part does at its clock is known. *)
Lemma bind_then {A B : Type} (m : M A) (f : A -> M B) (now t t' : nat) (a : A)
    (o : result B) (tr tr' : trace) :
  m now = Run (Ok a) t tr -> f a t = Run o t' tr' -> bind m f now = Run o t' (tr ++ tr').
Proof. intros Hm Hf. unfold bind. rewrite Hm. cbn [outcome clock events]. now rewrite Hf. Qed.

Lemma bind_stop {A B : Type} (m : M A) (f : A -> M B) (now t : nat) (e : exn) (tr : trace) :
  m now = Run (Raise e) t tr -> bind m f now = Run (Raise e) t tr.
Proof. intros Hm. unfold bind. now rewrite Hm. Qed.

Lemma bind_lift {A B : Type} (r : result A) (f : A -> M B) (now : nat) (a : A) :
  r = Ok a -> bind (lift r) f now = f a now.
Proof.
  intros ->. unfold bind, lift. cbn [outcome clock events]. now destruct (f a now).
Qed.

Lemma try_pass {A : Type} (body : M A) (handler : exn -> M A) (now t : nat) (a : A)
    (tr : trace) :
  body now = Run (Ok a) t tr -> try_except body handler now = Run (Ok a) t tr.
Proof. intros Hb. unfold try_except. now rewrite Hb. Qed.

Lemma try_catch {A : Type} (body : M A) (handler : exn -> M A) (now t t' : nat) (e : exn)
    (o : result A) (tr tr' : trace) :
  body now = Run (Raise e) t tr -> handler e t = Run o t' tr' ->
  try_except body handler now = Run o t' (tr ++ tr').
Proof.
  intros Hb Hh. unfold try_except. rewrite Hb. cbn [outcome clock events]. now rewrite Hh.
Qed.

Lemma try_unfinished {A : Type} (body : M A) (handler : exn -> M A) (now t : nat)
    (tr : trace) :
  body now = Run Unfinished t tr -> try_except body handler now = Run Unfinished t tr.
Proof. intros Hb. unfold try_except. now rewrite Hb. Qed.

(** What ends a [try] block whose last step is a pure call. *)
Lemma try_last {A : Type} (r : result A) (handler : exn -> M A) (now : nat) (tr : trace)
    (body : M A) :
  body now = Run r now tr ->
  try_except body handler now
  = match r with
    | Raise e => Run (outcome (handler e now)) (clock (handler e now))
                     (tr ++ events (handler e now))
    | _ => Run r now tr
    end.
Proof. intros Hb. unfold try_except. rewrite Hb. now destruct r. Qed.

Lemma check_period_type_run (period : period_arg) (now : nat) :
  check_period_type period now
  = if is_int period then Run (Ok tt) now [] else Run (Raise period_not_int) now [oops now].
Proof. unfold check_period_type. now destruct (is_int period). Qed.

Lemma check_for_period_error_run (data : Series) (period : period_arg) (now : nat) :
  check_for_period_error data period now
  = match int_ period with
    | Ok z => if (Z.of_nat (List.length data) <? z)%Z
              then Run (Raise period_too_long) now [oops now]
              else Run (Ok tt) now []
    | Raise e => Run (Raise e) now []
    | Unfinished => Run Unfinished now []
    end.
Proof.
  unfold check_for_period_error, bind, lift. cbn [outcome clock events].
  destruct (int_ period) as [z| |]; try reflexivity.
  now destruct (Z.of_nat (List.length data) <? z)%Z.
Qed.

Lemma accepted_passes (data : Series) (period : period_arg) (now : nat) :
  accepted data period ->
  check_period_type period now = Run (Ok tt) now [] /\
  check_for_period_error data period now = Run (Ok tt) now [].
Proof.
  intros (Hint & z & Hz & Hfits). apply Z.ltb_ge in Hfits.
  rewrite check_period_type_run, check_for_period_error_run, Hint, Hz, Hfits. now split.
Qed.

Lemma too_long_fails (data : Series) (period : period_arg) (now : nat) :
  too_long data period ->
  check_period_type period now = Run (Ok tt) now [] /\
  check_for_period_error data period now = Run (Raise period_too_long) now [oops now].
Proof.
  intros (Hint & z & Hz & Hlong). apply Z.ltb_lt in Hlong.
  rewrite check_period_type_run, check_for_period_error_run, Hint, Hz, Hlong. now split.
Qed.

Lemma not_int_fails (period : period_arg) (now : nat) :
  is_int period = false ->
  check_period_type period now = Run (Raise period_not_int) now [oops now].
Proof. intros Hint. now rewrite check_period_type_run, Hint. Qed.

Lemma handler_run {A : Type} (e : exn) (now : nat) :
  handler (A := A) e now
  = if is_exception e then Run (Raise e) now [oops now] else Run (Raise e) now [].
Proof. destruct e; reflexivity. Qed.

(** How a [try] block of this module ends when its last step is a pure
    call made after the events [tr]. *)
Lemma ends_with {A : Type} (r : result A) (now : nat) (tr : trace) (body : M A) :
  body now = Run r now tr ->
  try_except body handler now
  = match r with
    | Ok a => Run (Ok a) now tr
    | Raise e => if is_exception e
                 then Run (Raise e) now (tr ++ [oops now])
                 else Run (Raise e) now tr
    | Unfinished => Run Unfinished now tr
    end.
Proof.
  intros Hb. rewrite (try_last r handler now tr body Hb).
  destruct r as [a|e|]; try reflexivity.
  rewrite handler_run. destruct (is_exception e); cbn [outcome clock events];
    [reflexivity | now rewrite app_nil_r].
Qed.

End analysis_facts.

(** X11.  [check_inputs_length] accepts its inputs exactly when they all
    have the same length, which includes no input at all and a single
    input; otherwise it logs an error and raises [AnalysisException]. *)
Theorem check_inputs_length_accepts_equal_lengths :
  forall (args : list analysis.Series) (now : nat),
    ((forall a b, In a args -> In b args -> List.length a = List.length b) /\
     analysis.check_inputs_length args now = Run (Ok tt) now []) \/
    ((exists a b, In a args /\ In b args /\ List.length a <> List.length b) /\
     analysis.check_inputs_length args now
     = Run (Raise analysis.mismatched_lengths) now [analysis.oops now]).
Proof.
  intros args now. unfold analysis.check_inputs_length.
  destruct (forallb (fun a => (a =? hd 0 (map (@List.length analysis.fval) args))%nat)
              (map (@List.length analysis.fval) args)) eqn:E.
  - left. split; [|reflexivity].
    rewrite forallb_forall in E.
    assert (Hhead : forall a, In a args ->
                      List.length a = hd 0 (map (@List.length analysis.fval) args)).
    { intros a Ha. apply Nat.eqb_eq, E, in_map, Ha. }
    intros a b Ha Hb. now rewrite (Hhead a Ha), (Hhead b Hb).
  - right. split; [|reflexivity].
    destruct args as [|first rest]; [discriminate|].
    assert (Hex : exists n, In n (map (@List.length analysis.fval) (first :: rest)) /\
                            (n =? List.length first)%nat = false).
    { clear -E. simpl hd in E.
      induction (map (@List.length analysis.fval) (first :: rest)) as [|n l IH];
        [discriminate|].
      simpl in E. apply andb_false_iff in E. destruct E as [E|E].
      - exists n. split; [now left | exact E].
      - destruct (IH E) as (m & Hm & Hne). exists m. split; [now right | exact Hne]. }
    destruct Hex as (n & Hn & Hne). apply in_map_iff in Hn. destruct Hn as (b & <- & Hb).
    exists b, first. split; [exact Hb|]. split; [now left|]. now apply Nat.eqb_neq.
Qed.

(** X12.  [ema] reaches [talib.EMA] only with a period that is an [int] not
    larger than the number of data points, so that a zero or negative
    period is let through; a period of another type, or a longer one, is
    refused with [AnalysisException] before anything is computed, the error
    being logged twice, by the check and by the handler of [ema]; and what
    [talib.EMA] returns or raises is what [ema] returns or raises. *)
Theorem ema_validates_period :
  forall talib_EMA (data : analysis.Series) (period : analysis.period_arg) (now : nat),
    let info := (now, EvLog INFO "Calculating Exponential Moving Average for period = {}"
                        [analysis.fmt_period period]) in
    (analysis.is_int period = false ->
     analysis.ema talib_EMA data period now
     = Run (Raise analysis.period_not_int) now [info; analysis.oops now; analysis.oops now]) /\
    (forall z, analysis.is_int period = true -> analysis.int_ period = Ok z ->
       (Z.of_nat (List.length data) < z)%Z ->
       analysis.ema talib_EMA data period now
       = Run (Raise analysis.period_too_long) now
           [info; analysis.oops now; analysis.oops now]) /\
    (forall z, analysis.is_int period = true -> analysis.int_ period = Ok z ->
       (z <= Z.of_nat (List.length data))%Z ->
       analysis.ema talib_EMA data period now
       = match talib_EMA data period with
         | Ok series => Run (Ok series) now [info]
         | Raise e => if is_exception e
                      then Run (Raise e) now [info; analysis.oops now]
                      else Run (Raise e) now [info]
         | Unfinished => Run Unfinished now [info]
         end).
Proof.
  intros talib_EMA data period now info. subst info. unfold analysis.ema.
  split; [|split].
  - intros Hint.
    erewrite analysis_facts.try_catch;
      [ | eapply analysis_facts.bind_then;
            [reflexivity | eapply analysis_facts.bind_stop;
                           now apply analysis_facts.not_int_fails]
        | reflexivity ].
    reflexivity.
  - intros z Hint Hz Hlong.
    destruct (analysis_facts.too_long_fails data period now) as [Htype Hlength];
      [split; [exact Hint | now exists z]|].
    erewrite analysis_facts.try_catch;
      [ | eapply analysis_facts.bind_then;
            [reflexivity | eapply analysis_facts.bind_then;
                           [exact Htype | eapply analysis_facts.bind_stop; exact Hlength]]
        | reflexivity ].
    reflexivity.
  - intros z Hint Hz Hfits.
    destruct (analysis_facts.accepted_passes data period now) as [Htype Hlength];
      [split; [exact Hint | now exists z]|].
    erewrite (analysis_facts.ends_with (talib_EMA data period));
      [ | eapply analysis_facts.bind_then;
            [reflexivity | eapply analysis_facts.bind_then;
                           [exact Htype | eapply analysis_facts.bind_then;
                                          [exact Hlength | reflexivity]]] ].
    destruct (talib_EMA data period) as [series|e|]; try reflexivity;
      destruct (is_exception e); reflexivity.
Qed.

(** X13.  [absolute_price_oscillator] checks its short period completely,
    type then length, before it looks at the long one, and reaches
    [talib.APO] only when both periods are [int]s not larger than the number
    of data points: the first check to fail, in that order, decides the
    [AnalysisException] raised, and the error is logged twice. *)
Theorem absolute_price_oscillator_validates_in_order :
  forall talib_APO (data : analysis.Series) (short_period long_period : analysis.period_arg)
         (matype : Z) (now : nat),
    let info :=
      (now, EvLog INFO
              "Calculating Absolute Price Oscillator for Short period = {} and Long period = {}"
              [analysis.fmt_period short_period; analysis.fmt_period long_period]) in
    let run := analysis.absolute_price_oscillator talib_APO data short_period long_period
                 matype now in
    let refused e := Run (Raise e) now [info; analysis.oops now; analysis.oops now] in
    (analysis.is_int short_period = false -> run = refused analysis.period_not_int) /\
    (analysis.too_long data short_period -> run = refused analysis.period_too_long) /\
    (analysis.accepted data short_period -> analysis.is_int long_period = false ->
     run = refused analysis.period_not_int) /\
    (analysis.accepted data short_period -> analysis.too_long data long_period ->
     run = refused analysis.period_too_long) /\
    (analysis.accepted data short_period -> analysis.accepted data long_period ->
     run = match talib_APO data short_period long_period matype with
           | Ok series => Run (Ok series) now [info]
           | Raise e => if is_exception e
                        then Run (Raise e) now [info; analysis.oops now]
                        else Run (Raise e) now [info]
           | Unfinished => Run Unfinished now [info]
           end).
Proof.
  intros talib_APO data short_period long_period matype now info run refused.
  subst info run refused. unfold analysis.absolute_price_oscillator.
  cbn [analysis.check_periods].
  split; [|split; [|split; [|split]]].
  - intros Hint.
    erewrite analysis_facts.try_catch;
      [ | eapply analysis_facts.bind_then;
            [reflexivity
            | eapply analysis_facts.bind_stop; eapply analysis_facts.bind_stop;
              now apply analysis_facts.not_int_fails]
        | reflexivity ].
    reflexivity.
  - intros Hshort.
    destruct (analysis_facts.too_long_fails data short_period now Hshort) as [Htype Hlength].
    erewrite analysis_facts.try_catch;
      [ | eapply analysis_facts.bind_then;
            [reflexivity
            | eapply analysis_facts.bind_stop; eapply analysis_facts.bind_then;
              [exact Htype | eapply analysis_facts.bind_stop; exact Hlength]]
        | reflexivity ].
    reflexivity.
  - intros Hshort Hint.
    destruct (analysis_facts.accepted_passes data short_period now Hshort)
      as [Htype Hlength].
    erewrite analysis_facts.try_catch;
      [ | eapply analysis_facts.bind_then;
            [reflexivity
            | eapply analysis_facts.bind_stop; eapply analysis_facts.bind_then;
              [exact Htype
              | eapply analysis_facts.bind_then;
                [exact Hlength
                | eapply analysis_facts.bind_stop;
                  now apply analysis_facts.not_int_fails]]]
        | reflexivity ].
    reflexivity.
  - intros Hshort Hlong.
    destruct (analysis_facts.accepted_passes data short_period now Hshort)
      as [Htype Hlength].
    destruct (analysis_facts.too_long_fails data long_period now Hlong) as [Htype' Hlength'].
    erewrite analysis_facts.try_catch;
      [ | eapply analysis_facts.bind_then;
            [reflexivity
            | eapply analysis_facts.bind_stop; eapply analysis_facts.bind_then;
              [exact Htype
              | eapply analysis_facts.bind_then;
                [exact Hlength
                | eapply analysis_facts.bind_then;
                  [exact Htype' | eapply analysis_facts.bind_stop; exact Hlength']]]]
        | reflexivity ].
    reflexivity.
  - intros Hshort Hlong.
    destruct (analysis_facts.accepted_passes data short_period now Hshort)
      as [Htype Hlength].
    destruct (analysis_facts.accepted_passes data long_period now Hlong)
      as [Htype' Hlength'].
    erewrite (analysis_facts.ends_with (talib_APO data short_period long_period matype));
      [ | eapply analysis_facts.bind_then;
            [reflexivity
            | eapply analysis_facts.bind_then;
              [ eapply analysis_facts.bind_then;
                [exact Htype
                | eapply analysis_facts.bind_then;
                  [exact Hlength
                  | eapply analysis_facts.bind_then;
                    [exact Htype'
                    | eapply analysis_facts.bind_then; [exact Hlength' | reflexivity]]]]
              | reflexivity ]] ].
    destruct (talib_APO data short_period long_period matype) as [series|e|];
      try reflexivity; destruct (is_exception e); reflexivity.
Qed.

(** X14.  [value_at_risk] refuses every confidence level that is not an
    [int], floating point numbers included, with an [AnalysisException]
    whose message says that an integer or floating point number is
    expected; for an [int] level it returns or raises what the percentile
    of the sorted returns does. *)
Theorem value_at_risk_refuses_floats :
  forall percentile (daily_returns : analysis.Series)
         (confidence_level : analysis.period_arg) (now : nat),
    let info := (now, EvLog INFO "Calculating Value at Risk for confidence level = {}"
                        [analysis.fmt_period confidence_level]) in
    let oops := (now, EvLog ERROR "Oops! An Error Occurred ⚠️" []) in
    (analysis.is_int confidence_level = false ->
     analysis.value_at_risk percentile daily_returns confidence_level now
     = Run (Raise analysis.bad_confidence_level) now [info; oops]) /\
    (analysis.is_int confidence_level = true ->
     analysis.value_at_risk percentile daily_returns confidence_level now
     = match percentile daily_returns confidence_level with
       | Ok value => Run (Ok value) now [info]
       | Raise e => if is_exception e
                    then Run (Raise e) now [info; oops]
                    else Run (Raise e) now [info]
       | Unfinished => Run Unfinished now [info]
       end).
Proof.
  intros percentile daily_returns confidence_level now info oops. subst info oops.
  unfold analysis.value_at_risk.
  split.
  - intros Hint. rewrite Hint. cbn [negb orb].
    erewrite analysis_facts.try_catch;
      [ | eapply analysis_facts.bind_then;
            [reflexivity | eapply analysis_facts.bind_stop; reflexivity]
        | reflexivity ].
    reflexivity.
  - intros Hint.
    assert (Hfloat : analysis.is_float confidence_level = false)
      by (destruct confidence_level; [reflexivity | reflexivity | discriminate Hint]).
    rewrite Hint, Hfloat. cbn [negb orb].
    erewrite (analysis_facts.try_last (percentile daily_returns confidence_level));
      [ | eapply analysis_facts.bind_then;
            [reflexivity | eapply analysis_facts.bind_then; reflexivity] ].
    destruct (percentile daily_returns confidence_level) as [value|e|]; try reflexivity;
      destruct e; reflexivity.
Qed.

(** X15.  When the result is not longer than the input,
    [fill_for_noncomputable_vals] returns a series as long as the input:
    the result, preceded by as many [NaN] as it is shorter, so that it is
    aligned with the end of the input. *)
Theorem fill_aligns_result_with_input :
  forall (input_data result_data : analysis.Series),
    List.length result_data <= List.length input_data ->
    exists filled,
      analysis.fill_for_noncomputable_vals input_data result_data = Ok filled /\
      List.length filled = List.length input_data /\
      firstn (List.length input_data - List.length result_data) filled
      = repeat analysis.NaN (List.length input_data - List.length result_data) /\
      skipn (List.length input_data - List.length result_data) filled = result_data.
Proof.
  intros input_data result_data Hle. unfold analysis.fill_for_noncomputable_vals.
  assert (Hcount : (Z.of_nat (List.length input_data) - Z.of_nat (List.length result_data)
                    <? 0)%Z = false) by (apply Z.ltb_ge; lia).
  rewrite Hcount.
  replace (Z.to_nat (Z.of_nat (List.length input_data) - Z.of_nat (List.length result_data)))
    with (List.length input_data - List.length result_data) by lia.
  eexists. split; [reflexivity|].
  pose proof (repeat_length analysis.NaN (List.length input_data - List.length result_data))
    as Hrep.
  split; [|split].
  - rewrite length_app, Hrep. lia.
  - rewrite firstn_app, Hrep, Nat.sub_diag. simpl. rewrite app_nil_r.
    rewrite <- Hrep at 1. apply firstn_all.
  - rewrite skipn_app, Hrep, Nat.sub_diag. simpl.
    rewrite <- Hrep at 1. now rewrite skipn_all.
Qed.

(** X16.  [annual_return] refuses data with fewer than 250 or more than
    257 entries before it logs or computes anything, the error being logged
    twice; for data within these bounds it logs the number of trading days,
    then calls [daily_returns], and returns the mean daily return times the
    number of trading days. *)
Theorem annual_return_needs_one_year :
  forall pct_change mean scale (data : analysis.Series) (now : nat),
    (List.length data < 250 \/ 257 < List.length data ->
     analysis.annual_return pct_change mean scale data now
     = Run (Raise analysis.not_a_year) now [analysis.oops now; analysis.oops now]) /\
    (forall returns mean_daily_returns,
       250 <= List.length data <= 257 ->
       pct_change data = Ok returns ->
       mean returns = Ok mean_daily_returns ->
       analysis.annual_return pct_change mean scale data now
       = Run (scale mean_daily_returns (List.length data)) now
           ([(now, EvLog INFO
                     "Calculating Annual return. Number of trading days in provided data: {}"
                     [FNum (inject_Z (Z.of_nat (List.length data)))]);
             (now, EvLog INFO "Calculating Daily Returns..." [])]
            ++ match scale mean_daily_returns (List.length data) with
               | Raise e => if is_exception e then [analysis.oops now] else []
               | _ => []
               end)).
Proof.
  intros pct_change mean scale data now. unfold analysis.annual_return.
  split.
  - intros Hout.
    assert (Hcheck : analysis.check_data_for_annual_trading_days data now
                     = Run (Raise analysis.not_a_year) now [analysis.oops now]).
    { unfold analysis.check_data_for_annual_trading_days.
      replace ((List.length data <? 250)%nat || (257 <? List.length data)%nat) with true;
        [reflexivity|].
      symmetry. apply orb_true_iff.
      destruct Hout as [H|H]; [left | right]; now apply Nat.ltb_lt. }
    erewrite analysis_facts.try_catch;
      [ | eapply analysis_facts.bind_stop; exact Hcheck | reflexivity ].
    reflexivity.
  - intros returns mean_daily_returns [Hlo Hhi] Hpct Hmean.
    assert (Hcheck : analysis.check_data_for_annual_trading_days data now
                     = Run (Ok tt) now []).
    { unfold analysis.check_data_for_annual_trading_days.
      replace ((List.length data <? 250)%nat || (257 <? List.length data)%nat) with false;
        [reflexivity|].
      symmetry. apply orb_false_iff. split; apply Nat.ltb_ge; lia. }
    assert (Hdaily : analysis.daily_returns pct_change data now
                     = Run (Ok returns) now
                         [(now, EvLog INFO "Calculating Daily Returns..." [])]).
    { unfold analysis.daily_returns. apply analysis_facts.try_pass.
      unfold bind, emit, lift. cbn [outcome clock events]. now rewrite Hpct. }
    erewrite (analysis_facts.ends_with (scale mean_daily_returns (List.length data)));
      [ | eapply analysis_facts.bind_then;
            [exact Hcheck
            | eapply analysis_facts.bind_then;
              [reflexivity
              | eapply analysis_facts.bind_then;
                [exact Hdaily
                | eapply analysis_facts.bind_then;
                  [rewrite Hmean; reflexivity | reflexivity]]]] ].
    destruct (scale mean_daily_returns (List.length data)) as [value|e|];
      try reflexivity; try (now rewrite app_nil_r);
      destruct (is_exception e); try reflexivity; now rewrite app_nil_r.
Qed.

(** * The further theorems at work on the sample runs *)


Lemma backtest_follows_bucket_order_witness :
  outcome (run_backtest sample.world sample.hold (sample.backtest_args ["AAA"; "BBB"]) 0)
  = Ok tt /\
  data_calls (events (run_backtest sample.world sample.hold
                        (sample.backtest_args ["AAA"; "BBB"]) 0))
  = [EvDataCall "AAA" "2020-01-01" "2020-01-03" "1d";
     EvDataCall "BBB" "2020-01-01" "2020-01-03" "1d"].
Proof.
  destruct (backtest_follows_bucket_order sample.world sample.hold
              (sample.backtest_args ["AAA"; "BBB"]) 0 sample.history
              (fun symbol => if String.eqb symbol "AAA" then sample.AAA else sample.BBB)
              eq_refl (fun backtest _ => ex_intro _ backtest eq_refl))
    as (Hout & _ & Hdata).
  - intros symbol [<- | [<- | []]]; (split; [reflexivity | discriminate]).
  - split; [exact Hout | exact Hdata].
Defined.

Lemma backtest_aborts_on_first_failure_witness :
  outcome (run_backtest sample.world sample.hold
             (sample.backtest_args ["AAA"; "ZZZ"; "BBB"]) 0)
  = Raise (PyException "ValueError" "no such symbol") /\
  data_calls (events (run_backtest sample.world sample.hold
                        (sample.backtest_args ["AAA"; "ZZZ"; "BBB"]) 0))
  = [EvDataCall "AAA" "2020-01-01" "2020-01-03" "1d";
     EvDataCall "ZZZ" "2020-01-01" "2020-01-03" "1d"].
Proof.
  destruct (backtest_aborts_on_first_failure sample.world sample.hold
              (sample.backtest_args ["AAA"; "ZZZ"; "BBB"]) 0 sample.history
              (fun _ => sample.AAA) ["AAA"] "ZZZ" ["BBB"]
              (PyException "ValueError" "no such symbol")
              eq_refl eq_refl (fun backtest _ => ex_intro _ backtest eq_refl))
    as (Hout & _ & Hdata).
  - intros symbol [<- | []]. split; [reflexivity | discriminate].
  - reflexivity.
  - split; [exact Hout | exact Hdata].
Defined.

Lemma unknown_data_identifier_witness :
  outcome (run_backtest sample.world sample.hold
             (mkBacktestArgs ["AAA"] "US_STOCKS_hourly" "2020-01-01" "2020-01-03" "1d"
                "close" "SPY" 50000 0 false) 0)
  = Raise (KeyError "US_STOCKS_hourly").
Proof.
  rewrite (unknown_data_identifier sample.world sample.hold
             (mkBacktestArgs ["AAA"] "US_STOCKS_hourly" "2020-01-01" "2020-01-03" "1d"
                "close" "SPY" 50000 0 false) 0 eq_refl).
  reflexivity.
Defined.


Lemma feed_called_for_bucket_symbols_witness :
  exists symbols symbol,
    PyList ["AAPL"; "MSFT"] = PyList symbols /\ In symbol symbols /\
    EvFeedCall "MSFT" false = EvFeedCall symbol false.
Proof.
  apply (feed_called_for_bucket_symbols sample.world sample.watch
           (sample.live_args ["AAPL"; "MSFT"] "US_STOCKS_live_feed" ["closed"]) 3 0).
  vm_compute. right. left. reflexivity.
Defined.

Lemma rate_limit_looked_up_for_crypto_only_witness :
  rate_limit_lookups (events (run_live sample.world sample.watch
                                (sample.live_args ["BTC/USD"] "CRYPTO_live_feed" ["closed"])
                                3 0)) = 1 /\
  outcome (run_live more_samples.unreachable_exchange sample.watch
             (sample.live_args ["BTC/USD"] "CRYPTO_live_feed" ["closed"]) 3 0)
  = Raise (PyException "NetworkError" "exchange not reachable") /\
  rate_limit_lookups (events (run_live sample.world sample.watch
                                (sample.live_args ["AAPL"] "US_STOCKS_live_feed" ["closed"])
                                3 0)) = 0.
Proof.
  split; [|split].
  - destruct (rate_limit_looked_up_for_crypto_only sample.world sample.watch
                (sample.live_args ["BTC/USD"] "CRYPTO_live_feed" ["closed"]) 3 0
                ["BTC/USD"] eq_refl) as [Hcrypto _].
    apply Hcrypto. left. reflexivity.
  - destruct (rate_limit_looked_up_for_crypto_only more_samples.unreachable_exchange
                sample.watch (sample.live_args ["BTC/USD"] "CRYPTO_live_feed" ["closed"]) 3 0
                ["BTC/USD"] eq_refl) as [Hcrypto _].
    destruct (Hcrypto (or_introl eq_refl)) as [_ Hfail].
    destruct (Hfail (PyException "NetworkError" "exchange not reachable") eq_refl)
      as (Hout & _). exact Hout.
  - destruct (rate_limit_looked_up_for_crypto_only sample.world sample.watch
                (sample.live_args ["AAPL"] "US_STOCKS_live_feed" ["closed"]) 3 0
                ["AAPL"] eq_refl) as [_ Hother].
    apply Hother. intros [H | H]; discriminate H.
Defined.

Lemma live_returns_at_once_when_exempted_witness :
  outcome (run_live sample.world sample.watch
             (sample.live_args ["AAPL"] "US_STOCKS_live_feed" ["open"]) 3 0) = Ok tt /\
  status_reads (events (run_live sample.world sample.watch
                          (sample.live_args ["AAPL"] "US_STOCKS_live_feed" ["open"]) 3 0))
  = 1.
Proof.
  destruct (live_returns_at_once_when_exempted sample.world sample.watch
              (sample.live_args ["AAPL"] "US_STOCKS_live_feed" ["open"]) 2 0
              ["AAPL"] sample.feed 250%Q "open"
              eq_refl (or_intror (or_introl eq_refl)) eq_refl eq_refl eq_refl eq_refl)
    as (Hout & _ & Hreads & _).
  split; [exact Hout | exact Hreads].
Defined.

Lemma non_list_bucket_rejected_witness :
  outcome (run_live sample.world sample.watch
             (mkLiveArgs NotAList "US_STOCKS_live_feed" [""] [""] [""] 2 250 false) 3 0)
  = Raise (NameError "numpy").
Proof.
  rewrite (non_list_bucket_rejected sample.world sample.watch
             (mkLiveArgs NotAList "US_STOCKS_live_feed" [""] [""] [""] 2 250 false) 3 0
             eq_refl).
  reflexivity.
Defined.

Lemma ema_validates_period_witness :
  outcome (analysis.ema more_samples.same_series more_samples.prices
             (analysis.PeriodOther "2.5" true (Ok 2%Z)) 0)
  = Raise analysis.period_not_int /\
  outcome (analysis.ema more_samples.same_series more_samples.prices
             (analysis.PeriodInt 4) 0)
  = Raise analysis.period_too_long /\
  outcome (analysis.ema more_samples.same_series more_samples.prices
             (analysis.PeriodInt (-1)) 0)
  = Ok more_samples.prices.
Proof.
  split; [|split].
  - destruct (ema_validates_period more_samples.same_series more_samples.prices
                (analysis.PeriodOther "2.5" true (Ok 2%Z)) 0) as (Hnot & _).
    rewrite (Hnot eq_refl). reflexivity.
  - destruct (ema_validates_period more_samples.same_series more_samples.prices
                (analysis.PeriodInt 4) 0) as (_ & Hlong & _).
    rewrite (Hlong 4%Z eq_refl eq_refl); [reflexivity | simpl; lia].
  - destruct (ema_validates_period more_samples.same_series more_samples.prices
                (analysis.PeriodInt (-1)) 0) as (_ & _ & Hfits).
    rewrite (Hfits (-1)%Z eq_refl eq_refl); [reflexivity | simpl; lia].
Defined.

Lemma absolute_price_oscillator_validates_in_order_witness :
  outcome (analysis.absolute_price_oscillator more_samples.same_series2 more_samples.prices
             (analysis.PeriodInt 4) (analysis.PeriodOther "x" false (Raise (PyException
                "ValueError" "invalid literal for int()"))) 0 0)
  = Raise analysis.period_too_long /\
  outcome (analysis.absolute_price_oscillator more_samples.same_series2 more_samples.prices
             (analysis.PeriodInt 2) (analysis.PeriodInt 3) 0 0)
  = Ok more_samples.prices.
Proof.
  split.
  - destruct (absolute_price_oscillator_validates_in_order more_samples.same_series2
                more_samples.prices (analysis.PeriodInt 4)
                (analysis.PeriodOther "x" false
                   (Raise (PyException "ValueError" "invalid literal for int()"))) 0 0)
      as (_ & Hlong & _).
    rewrite Hlong; [reflexivity|].
    split; [reflexivity|]. exists 4%Z. split; [reflexivity | simpl; lia].
  - destruct (absolute_price_oscillator_validates_in_order more_samples.same_series2
                more_samples.prices (analysis.PeriodInt 2) (analysis.PeriodInt 3) 0 0)
      as (_ & _ & _ & _ & Hboth).
    rewrite Hboth; [reflexivity | |].
    + split; [reflexivity|]. exists 2%Z. split; [reflexivity | simpl; lia].
    + split; [reflexivity|]. exists 3%Z. split; [reflexivity | simpl; lia].
Defined.

Lemma value_at_risk_refuses_floats_witness :
  outcome (analysis.value_at_risk more_samples.first_value more_samples.prices
             (analysis.PeriodOther "95.0" true (Ok 95%Z)) 0)
  = Raise analysis.bad_confidence_level /\
  outcome (analysis.value_at_risk more_samples.first_value more_samples.prices
             (analysis.PeriodInt 95) 0)
  = Ok (analysis.Num 10).
Proof.
  split.
  - destruct (value_at_risk_refuses_floats more_samples.first_value more_samples.prices
                (analysis.PeriodOther "95.0" true (Ok 95%Z)) 0) as [Hnot _].
    rewrite (Hnot eq_refl). reflexivity.
  - destruct (value_at_risk_refuses_floats more_samples.first_value more_samples.prices
                (analysis.PeriodInt 95) 0) as [_ Hint].
    rewrite (Hint eq_refl). reflexivity.
Defined.

Lemma fill_aligns_result_with_input_witness :
  exists filled,
    analysis.fill_for_noncomputable_vals more_samples.prices [analysis.Num 5] = Ok filled /\
    List.length filled = 3 /\
    skipn 2 filled = [analysis.Num 5].
Proof.
  destruct (fill_aligns_result_with_input more_samples.prices [analysis.Num 5])
    as (filled & Hfill & Hlen & _ & Htail).
  - simpl. lia.
  - exists filled. split; [exact Hfill|]. split; [exact Hlen | exact Htail].
Defined.

Lemma annual_return_needs_one_year_witness :
  outcome (analysis.annual_return (fun data => Ok data)
             (fun returns => Ok (hd analysis.NaN returns)) (fun x _ => Ok x)
             more_samples.prices 0)
  = Raise analysis.not_a_year /\
  outcome (analysis.annual_return (fun data => Ok data)
             (fun returns => Ok (hd analysis.NaN returns)) (fun x _ => Ok x)
             more_samples.year 0)
  = Ok (analysis.Num 1).
Proof.
  split.
  - destruct (annual_return_needs_one_year (fun data => Ok data)
                (fun returns => Ok (hd analysis.NaN returns)) (fun x _ => Ok x)
                more_samples.prices 0) as [Hshort _].
    rewrite Hshort; [reflexivity|]. left. simpl. lia.
  - destruct (annual_return_needs_one_year (fun data => Ok data)
                (fun returns => Ok (hd analysis.NaN returns)) (fun x _ => Ok x)
                more_samples.year 0) as [_ Hyear].
    rewrite (Hyear more_samples.year (analysis.Num 1)); [reflexivity | | reflexivity
                                                         | reflexivity].
    unfold more_samples.year. rewrite repeat_length. lia.
Defined.
